(** * Cricket dashboard: analytics formulas and the browser-storage data service

    A shallow embedding of [src/lib/statsUtils.ts], of the [AnalyticsEngine]
    class that follows it in the same file, and of the [DataService] class.

    JavaScript numbers are IEEE 754 binary64 values; they are modelled by Rocq's
    primitive [float], whose operations round exactly as the JavaScript ones do
    (division by zero gives an infinity or NaN, it does not fail).  Array
    lengths and indices are natural numbers. *)

From Stdlib Require Import Floats ZArith.
From stdpp Require Import gmap strings list pretty.

Set Warnings "-inexact-float".
Set Default Proof Using "Type".

(** ** JavaScript number primitives *)

Module JS.

Open Scope float_scope.

(** Conversion of an integer value (an array length, a counter) to a number. *)
Definition of_Z (n : Z) : float := SF2Prim (binary_normalize prec emax n 0 false).
Definition of_nat (n : nat) : float := of_Z (Z.of_nat n).

(** [a === b], [a < b], [a > b], [a >= b] on numbers. *)
Definition strict_eq (a b : float) : bool := (a =? b).
Definition lt (a b : float) : bool := (a <? b).
Definition gt (a b : float) : bool := (b <? a).
Definition ge (a b : float) : bool := (b <=? a).
Definition le (a b : float) : bool := (a <=? b).

Definition is_neg_zero (a : float) : bool :=
  match classify a with NZero => true | _ => false end.
Definition is_pos_zero (a : float) : bool :=
  match classify a with PZero => true | _ => false end.

(** [Math.min] and [Math.max] of two arguments: NaN if either is NaN, and
    [-0] counts as smaller than [+0]. *)
Definition Math_min (a b : float) : float :=
  if is_nan a || is_nan b then nan
  else if a <? b then a
  else if b <? a then b
  else if is_neg_zero a then a else b.

Definition Math_max (a b : float) : float :=
  if is_nan a || is_nan b then nan
  else if b <? a then a
  else if a <? b then b
  else if is_pos_zero a then a else b.

Definition Math_abs (a : float) : float := abs a.
Definition Math_sqrt (a : float) : float := sqrt a.

(** [Math.pow(a, 2)], the only exponent the sources use. *)
Definition Math_pow2 (a : float) : float := a * a.

(** [Math.round]: the nearest integer, ties towards +infinity, computed exactly
    on the mantissa and exponent; zeros, infinities and NaN are returned as
    they are, and a negative argument that rounds to zero gives [-0]. *)
Definition Math_round (a : float) : float :=
  match Prim2SF a with
  | S754_finite s m e =>
      if (0 <=? e)%Z then a
      else
        let sm := if s then Z.neg m else Z.pos m in
        let n := ((2 * sm + 2 ^ (- e)) / 2 ^ (1 - e))%Z in
        if (n =? 0)%Z then (if s then neg_zero else zero) else of_Z n
  | _ => a
  end.

(** [l[i]] read as a number: an index out of range reads [undefined], which
    every arithmetic operation turns into NaN. *)
Definition idx (l : list float) (i : nat) : float := default nan (l !! i).

(** [l.reduce((a, b) => a + b, 0)]. *)
Definition sum (l : list float) : float := fold_left (fun a b => a + b) l 0.

(** [Array.prototype.slice]: a negative index counts from the end, and both
    ends are cut to the array. *)
Definition rel_index (len : nat) (k : Z) : nat :=
  if (k <? 0)%Z then Z.to_nat (Z.max (Z.of_nat len + k) 0)
  else Nat.min (Z.to_nat k) len.

Definition slice {A} (l : list A) (s e : Z) : list A :=
  let from := rel_index (length l) s in
  let to := rel_index (length l) e in
  take (to - from) (drop from l).

Definition slice_from {A} (l : list A) (s : Z) : list A :=
  drop (rel_index (length l) s) l.

(** [Array.prototype.sort] with a comparator, as a stable insertion sort: an
    element moves behind another only when the comparator puts it strictly
    after.  (A comparator that returns NaN counts as a tie.) *)
Fixpoint insert_by {A} (cmp : A -> A -> float) (x : A) (l : list A) : list A :=
  match l with
  | [] => [x]
  | y :: l' => if cmp y x <? 0 then y :: insert_by cmp x l' else x :: l
  end.

Definition sort_by {A} (cmp : A -> A -> float) (l : list A) : list A :=
  foldr (insert_by cmp) [] l.

(** [lo <= c <= hi] as JavaScript compares numbers (false for NaN). *)
Definition in_range (lo hi c : float) : Prop :=
  (lo <=? c) = true /\ (c <=? hi) = true.

End JS.

(** ** statsUtils.ts *)

Module StatsUtils.

Import JS.
Open Scope float_scope.

(** The fields of [Player] that the formulas read.  The interface itself is
    declared in [@/data/players], which types every statistic as [number]. *)
Record Player := mkPlayer {
  id : string;
  name : string;
  role : string;
  battingAverage : float;
  strikeRate : float;
  bowlingEconomy : float;
  fitnessScore : float;
  fieldingRating : float;
  totalRuns : float;
  wickets : float;
  matchesPlayed : float;
  fours : float;
  sixes : float;
  catches : float;
  runsPerMatch : list float;
  wicketsPerMatch : list float
}.

Definition calculateMean (values : list float) : float :=
  if (length values =? 0)%nat then 0
  else fold_left (fun sum val => sum + val) values 0 / of_nat (length values).

Definition calculateStandardDeviation (values : list float) : float :=
  if (length values =? 0)%nat then 0
  else
    let mean := calculateMean values in
    let squaredDiffs := map (fun val => Math_pow2 (val - mean)) values in
    Math_sqrt (calculateMean squaredDiffs).

Definition calculateVariance (values : list float) : float :=
  if (length values =? 0)%nat then 0
  else
    let mean := calculateMean values in
    calculateMean (map (fun val => Math_pow2 (val - mean)) values).

Definition calculateZScore (value mean stdDev : float) : float :=
  if strict_eq stdDev 0 then 0 else (value - mean) / stdDev.

Definition normalizeValue (value min max : float) : float :=
  if strict_eq max min then 0 else (value - min) / (max - min).

Definition clamp (value min max : float) : float :=
  Math_min (Math_max value min) max.

Definition calculateConsistencyScore (values : list float) : float :=
  if (length values <? 2)%nat then 50
  else
    let mean := calculateMean values in
    if strict_eq mean 0 then 50
    else
      let stdDev := calculateStandardDeviation values in
      let coefficientOfVariation := (stdDev / mean) * 100 in
      clamp (100 - coefficientOfVariation) 0 100.

Definition calculateBattingIndex (player : Player) : float :=
  let avgWeight := 0.4 in
  let srWeight := 0.3 in
  let consistencyWeight := 0.2 in
  let experienceWeight := 0.1 in
  let avgScore := Math_min (battingAverage player / 60) 1 * 100 in
  let srScore := Math_min (strikeRate player / 180) 1 * 100 in
  let consistency := calculateConsistencyScore (runsPerMatch player) in
  let experience := Math_min (matchesPlayed player / 200) 1 * 100 in
  avgScore * avgWeight + srScore * srWeight + consistency * consistencyWeight
  + experience * experienceWeight.

Definition calculateBowlingIndex (player : Player) : float :=
  if strict_eq (wickets player) 0 then 0
  else
    let economyWeight := 0.35 in
    let wicketsWeight := 0.35 in
    let consistencyWeight := 0.2 in
    let experienceWeight := 0.1 in
    let economyScore := Math_max 0 ((10 - bowlingEconomy player) / 10) * 100 in
    let wicketsScore := Math_min (wickets player / matchesPlayed player * 20) 100 in
    let consistency := calculateConsistencyScore (wicketsPerMatch player) in
    let experience := Math_min (matchesPlayed player / 150) 1 * 100 in
    economyScore * economyWeight + wicketsScore * wicketsWeight
    + consistency * consistencyWeight + experience * experienceWeight.

Definition calculateStrikeRotation (player : Player) : float :=
  let boundaryRuns := (fours player * 4) + (sixes player * 6) in
  let nonBoundaryRuns := totalRuns player - boundaryRuns in
  if strict_eq (totalRuns player) 0 then 0
  else (nonBoundaryRuns / totalRuns player) * 100.

Definition calculateBoundaryPercentage (player : Player) : float :=
  if strict_eq (totalRuns player) 0 then 0
  else
    let boundaryRuns := (fours player * 4) + (sixes player * 6) in
    (boundaryRuns / totalRuns player) * 100.

Definition calculateSixToFourRatio (player : Player) : float :=
  if strict_eq (fours player) 0 then (if gt (sixes player) 0 then infinity else 0)
  else sixes player / fours player.

Definition calculateRunsPerMatch (player : Player) : float :=
  if strict_eq (matchesPlayed player) 0 then 0
  else totalRuns player / matchesPlayed player.

Definition calculateWicketsPerMatch (player : Player) : float :=
  if strict_eq (matchesPlayed player) 0 then 0
  else wickets player / matchesPlayed player.

(** *** Form and trend analysis *)

Inductive Trend := up | down | stable.

Definition calculateTrendDirection (values : list float) : Trend :=
  if (length values <? 4)%nat then stable
  else
    let firstHalf := slice values 0 (Z.of_nat (length values / 2)) in
    let secondHalf := slice_from values (Z.of_nat (length values / 2)) in
    let firstAvg := calculateMean firstHalf in
    let secondAvg := calculateMean secondHalf in
    let change :=
      if gt firstAvg 0 then ((secondAvg - firstAvg) / firstAvg) * 100 else 0 in
    if gt change 10 then up
    else if lt change (-10) then down
    else stable.

(** The [for] loop of [calculateMovingAverage]: [n] iterations are left, [i]
    is the loop index.  The window is an integer. *)
Fixpoint moving_loop (values : list float) (window : Z) (n : nat) (i : Z)
    (result : list float) : list float :=
  match n with
  | O => result
  | S n' =>
      let windowValues := slice values (i - window + 1) (i + 1) in
      moving_loop values window n' (i + 1) (result ++ [calculateMean windowValues])
  end.

Definition calculateMovingAverage (values : list float) (window : Z) : list float :=
  if (Z.of_nat (length values) <? window)%Z then values
  else
    moving_loop values window
      (Z.to_nat (Z.of_nat (length values) - (window - 1))) (window - 1) [].

(** The default value of the [window] parameter. *)
Definition default_window : Z := 3.

(** The [for] loop of [calculateExponentialMovingAverage]: [n] iterations are
    left, [i] is the loop index and [result] the array built so far. *)
Fixpoint ema_loop (alpha : float) (values : list float) (n i : nat)
    (result : list float) : list float :=
  match n with
  | O => result
  | S n' =>
      ema_loop alpha values n' (S i)
        (result ++ [alpha * idx values i + (1 - alpha) * idx result (i - 1)])
  end.

Definition calculateExponentialMovingAverage (values : list float)
    (alpha : float) : list float :=
  if (length values =? 0)%nat then []
  else ema_loop alpha values (length values - 1) 1 [idx values 0].

(** The default value of the [alpha] parameter. *)
Definition default_alpha : float := 0.3.

Definition predictNextValue (values : list float) : float :=
  if (length values =? 0)%nat then 0
  else if (length values =? 1)%nat then idx values 0
  else
    let ema := calculateExponentialMovingAverage values 0.4 in
    let lastEma := idx ema (length ema - 1) in
    let trend := calculateTrendDirection values in
    let trendMultiplier :=
      match trend with up => 1.05 | down => 0.95 | stable => 1 end in
    lastEma * trendMultiplier.

(** *** Comparison utilities *)

Inductive Comparison := higher | lower | equal.

Definition compareValues (a b : float) : Comparison :=
  if lt (Math_abs (a - b)) 0.01 then equal
  else if gt a b then higher else lower.

Definition calculatePercentageDifference (a b : float) : float :=
  if strict_eq b 0 then (if gt a 0 then 100 else 0)
  else ((a - b) / b) * 100.

(** [rankPlayers]: the keys of [Player] and the value read under each; only a
    key typed [number] gives the comparator something to subtract. *)
Inductive PlayerKey :=
  | key_id | key_name | key_role | key_battingAverage | key_strikeRate
  | key_bowlingEconomy | key_fitnessScore | key_fieldingRating | key_totalRuns
  | key_wickets | key_matchesPlayed | key_fours | key_sixes | key_catches
  | key_runsPerMatch | key_wicketsPerMatch.

Definition number_at (key : PlayerKey) (p : Player) : option float :=
  match key with
  | key_battingAverage => Some (battingAverage p)
  | key_strikeRate => Some (strikeRate p)
  | key_bowlingEconomy => Some (bowlingEconomy p)
  | key_fitnessScore => Some (fitnessScore p)
  | key_fieldingRating => Some (fieldingRating p)
  | key_totalRuns => Some (totalRuns p)
  | key_wickets => Some (wickets p)
  | key_matchesPlayed => Some (matchesPlayed p)
  | key_fours => Some (fours p)
  | key_sixes => Some (sixes p)
  | key_catches => Some (catches p)
  | _ => None
  end.

Definition rankPlayers (players : list Player) (key : PlayerKey) (ascending : bool)
    : list Player :=
  sort_by (fun a b =>
    match number_at key a, number_at key b with
    | Some aVal, Some bVal => if ascending then aVal - bVal else bVal - aVal
    | _, _ => 0
    end) players.

(** [getTopN]; [n] is an integer. *)
Definition getTopN {T} (items : list T) (n : Z) (scorer : T -> float) : list T :=
  map fst
    (slice (sort_by (fun a b => snd b - snd a)
              (map (fun item => (item, scorer item)) items)) 0 n).

End StatsUtils.

(** ** The AnalyticsEngine class *)

Module Analytics.

Import JS.
Export StatsUtils.
Open Scope float_scope.

Record PerformanceMetrics := mkPerformanceMetrics {
  overallRating : float;
  battingRating : float;
  bowlingRating : float;
  pm_fieldingRating : float;
  consistencyScore : float;
  impactScore : float;
  formIndex : float;
  potentialRating : float
}.

Inductive Form := Excellent | Good | Average | Poor | Critical.
Inductive FormTrend := Rising | Stable | Declining.
Inductive StreakType := positive | negative | neutral.

Record FormAnalysis := mkFormAnalysis {
  currentForm : Form;
  formTrend : FormTrend;
  last5MatchesAvg : float;
  formScore : float;
  streak : StreakType * nat
}.

Inductive Winner := player1 | player2 | tie.

Record Metric := mkMetric {
  category : string;
  player1Value : float;
  player2Value : float;
  winner : Winner
}.

Record PlayerComparison := mkPlayerComparison {
  pc_player1 : Player;
  pc_player2 : Player;
  battingEdge : string;
  bowlingEdge : string;
  fieldingEdge : string;
  overallEdge : string;
  metrics : list Metric
}.

Record MatchPrediction := mkMatchPrediction {
  winProbability : float;
  expectedRuns : float;
  expectedWickets : float;
  keyPlayers : list Player;
  riskFactors : list string;
  recommendations : list string
}.

Record TeamAnalytics := mkTeamAnalytics {
  teamStrength : float;
  battingDepth : float;
  bowlingStrength : float;
  fieldingEfficiency : float;
  balanceScore : float;
  weaknesses : list string;
  strengths : list string
}.

Inductive Trajectory := ascending | peak | declining | steady.

Record Range := mkRange { range_min : float; range_max : float; expected : float }.

Record PlayerPrediction := mkPlayerPrediction {
  nextMatchRuns : Range;
  nextMatchWickets : Range;
  season_totalRuns : float;
  season_totalWickets : float;
  season_average : float;
  peakPerformanceAge : float;
  careerTrajectory : Trajectory
}.

(** The engine object: its one field is the roster. *)
Record AnalyticsEngine := mkEngine { players : list Player }.

Definition updatePlayers (this : AnalyticsEngine) (ps : list Player) : AnalyticsEngine :=
  {| players := ps |}.

(** [Math.round(x * 10) / 10]. *)
Definition round1 (x : float) : float := Math_round (x * 10) / 10.

(** *** Performance metrics *)

Definition weightedAverage (items : list (float * float)) : float :=
  let totalWeight := fold_left (fun sum item => sum + snd item) items 0 in
  let weightedSum := fold_left (fun sum item => sum + fst item * snd item) items 0 in
  weightedSum / totalWeight.

Definition calculateBattingRating (player : Player) : float :=
  let avgScore := Math_min (battingAverage player * 1.5) 100 in
  let srScore := Math_min (strikeRate player / 2) 50 in
  let boundaryScore :=
    ((fours player + sixes player * 1.5) / matchesPlayed player) * 2 in
  Math_min (avgScore * 0.5 + srScore * 0.3 + boundaryScore * 0.2) 100.

Definition calculateBowlingRating (player : Player) : float :=
  if strict_eq (wickets player) 0 then 0
  else
    let economyScore := Math_max (100 - bowlingEconomy player * 10) 0 in
    let wicketRate := (wickets player / matchesPlayed player) * 25 in
    Math_min (economyScore * 0.5 + wicketRate * 0.5) 100.

Definition calculateConsistency (player : Player) : float :=
  let runs := runsPerMatch player in
  if (length runs =? 0)%nat then 50
  else
    let mean := sum runs / of_nat (length runs) in
    let variance :=
      fold_left (fun sum val => sum + Math_pow2 (val - mean)) runs 0
      / of_nat (length runs) in
    let stdDev := Math_sqrt variance in
    let cv := if gt mean 0 then (stdDev / mean) * 100 else 100 in
    Math_max (100 - cv) 0.

Definition calculateImpactScore (player : Player) : float :=
  let runs := runsPerMatch player in
  let highImpactMatches := length (filter (fun r => ge r 50 = true) runs) in
  let matchWinningPotential := length (filter (fun r => ge r 75 = true) runs) in
  let wickets := wicketsPerMatch player in
  let impactfulBowling := length (filter (fun w => ge w 3 = true) wickets) in
  let impactRatio :=
    of_nat (highImpactMatches * 2 + matchWinningPotential * 3 + impactfulBowling * 2)
    / of_nat (if (length runs =? 0)%nat then 1 else length runs) in
  Math_min (impactRatio * 20) 100.

Definition calculateFormIndex (player : Player) : float :=
  let recentRuns := slice_from (runsPerMatch player) (-5) in
  let recentWickets := slice_from (wicketsPerMatch player) (-5) in
  if (length recentRuns =? 0)%nat then 50
  else
    let avgRecentRuns := sum recentRuns / of_nat (length recentRuns) in
    let avgRecentWickets := sum recentWickets / of_nat (length recentWickets) in
    let overallAvgRuns :=
      sum (runsPerMatch player) / of_nat (length (runsPerMatch player)) in
    let formMultiplier :=
      if gt overallAvgRuns 0 then avgRecentRuns / overallAvgRuns else 1 in
    let formScore := 50 * formMultiplier in
    let formScore := formScore + avgRecentWickets * 10 in
    Math_min (Math_max formScore 0) 100.

Definition calculateRecentImprovement (player : Player) : float :=
  let runs := runsPerMatch player in
  if (length runs <? 6)%nat then 0
  else
    let firstHalf := slice runs 0 (Z.of_nat (length runs / 2)) in
    let secondHalf := slice_from runs (Z.of_nat (length runs / 2)) in
    let firstAvg := sum firstHalf / of_nat (length firstHalf) in
    let secondAvg := sum secondHalf / of_nat (length secondHalf) in
    if gt firstAvg 0 then ((secondAvg - firstAvg) / firstAvg) * 50 else 0.

Definition calculatePotential (player : Player) : float :=
  let recentImprovement := calculateRecentImprovement player in
  let fitnessBonus := if gt (fitnessScore player) 85 then 10 else 0 in
  let experienceFactor := Math_min (matchesPlayed player / 200) 1 * 20 in
  Math_min (70 + recentImprovement + fitnessBonus - experienceFactor) 100.

Definition calculatePerformanceMetrics (player : Player) : PerformanceMetrics :=
  let battingRating := calculateBattingRating player in
  let bowlingRating := calculateBowlingRating player in
  let fieldingRating := fieldingRating player in
  let consistencyScore := calculateConsistency player in
  let impactScore := calculateImpactScore player in
  let formIndex := calculateFormIndex player in
  let potentialRating := calculatePotential player in
  let overallRating := weightedAverage [
    (battingRating, if String.eqb (role player) "Bowler" then 0.15 else 0.35);
    (bowlingRating, if String.eqb (role player) "Batsman" then 0.1 else 0.3);
    (fieldingRating, 0.15);
    (consistencyScore, 0.15);
    (impactScore, 0.15);
    (fitnessScore player, 0.1) ] in
  {| overallRating := round1 overallRating;
     battingRating := round1 battingRating;
     bowlingRating := round1 bowlingRating;
     pm_fieldingRating := fieldingRating;
     consistencyScore := round1 consistencyScore;
     impactScore := round1 impactScore;
     formIndex := round1 formIndex;
     potentialRating := round1 potentialRating |}.

(** *** Form analysis *)

Definition determineFormTrend (runs : list float) : FormTrend :=
  if (length runs <? 6)%nat then Stable
  else
    let recent3 := sum (slice_from runs (-3)) / 3 in
    let previous3 := sum (slice runs (-6) (-3)) / 3 in
    let change :=
      if gt previous3 0 then ((recent3 - previous3) / previous3) * 100 else 0 in
    if gt change 15 then Rising
    else if lt change (-15) then Declining
    else Stable.

(** The loop of [calculateStreak] walks the runs from the last match back;
    [rev_runs] is what is left to visit, most recent first. *)
Fixpoint streak_loop (rev_runs : list float) (type : StreakType) (count : nat)
    : StreakType * nat :=
  match rev_runs with
  | [] => (type, count)
  | r :: rest =>
      let threshold := 30 in
      let isPositive := ge r threshold in
      let isNegative := lt r (threshold / 2) in
      if (count =? 0)%nat then
        streak_loop rest
          (if isPositive then positive else if isNegative then negative else neutral) 1
      else
        match type with
        | positive => if isPositive then streak_loop rest type (S count) else (type, count)
        | negative => if isNegative then streak_loop rest type (S count) else (type, count)
        | neutral => (type, count)
        end
  end.

(** What continues a streak of each type: the two tests of the loop, against
    the threshold 30 and against its half. *)
Definition streak_holds (type : StreakType) (r : float) : bool :=
  match type with
  | positive => ge r 30
  | negative => lt r 15
  | neutral => false
  end.

Definition calculateStreak (runs : list float) : StreakType * nat :=
  if (length runs =? 0)%nat then (neutral, 0%nat)
  else streak_loop (rev runs) neutral 0.

Definition analyzeForm (player : Player) : FormAnalysis :=
  let runs := runsPerMatch player in
  let last5 := slice_from runs (-5) in
  let last5Avg :=
    if (0 <? length last5)%nat then sum last5 / of_nat (length last5) else 0 in
  let formScore := calculateFormIndex player in
  let currentForm :=
    if ge formScore 80 then Excellent
    else if ge formScore 60 then Good
    else if ge formScore 40 then Average
    else if ge formScore 20 then Poor
    else Critical in
  let formTrend := determineFormTrend runs in
  let streak := calculateStreak runs in
  {| currentForm := currentForm;
     formTrend := formTrend;
     last5MatchesAvg := round1 last5Avg;
     formScore := round1 formScore;
     streak := streak |}.

(** *** Player comparison *)

Definition getWinner (val1 val2 : float) : Winner :=
  if lt (Math_abs (val1 - val2)) 0.01 then tie
  else if gt val1 val2 then player1 else player2.

Definition comparePlayer (p1 p2 : Player) : PlayerComparison :=
  let metric (c : string) (f : Player -> float) (w : Winner) :=
    {| category := c; player1Value := f p1; player2Value := f p2; winner := w |} in
  let metrics := [
    metric "Batting Average" battingAverage
      (getWinner (battingAverage p1) (battingAverage p2));
    metric "Strike Rate" strikeRate (getWinner (strikeRate p1) (strikeRate p2));
    metric "Total Runs" totalRuns (getWinner (totalRuns p1) (totalRuns p2));
    metric "Wickets" wickets (getWinner (wickets p1) (wickets p2));
    metric "Economy Rate" bowlingEconomy
      (getWinner (bowlingEconomy p2) (bowlingEconomy p1));
    metric "Fielding Rating" fieldingRating
      (getWinner (fieldingRating p1) (fieldingRating p2));
    metric "Fitness Score" fitnessScore
      (getWinner (fitnessScore p1) (fitnessScore p2)) ] in
  let p1Metrics := calculatePerformanceMetrics p1 in
  let p2Metrics := calculatePerformanceMetrics p2 in
  {| pc_player1 := p1;
     pc_player2 := p2;
     battingEdge :=
       if gt (battingRating p1Metrics) (battingRating p2Metrics) then name p1 else name p2;
     bowlingEdge :=
       if gt (bowlingRating p1Metrics) (bowlingRating p2Metrics) then name p1 else name p2;
     fieldingEdge :=
       if gt (fieldingRating p1) (fieldingRating p2) then name p1 else name p2;
     overallEdge :=
       if gt (overallRating p1Metrics) (overallRating p2Metrics) then name p1 else name p2;
     metrics := metrics |}.

(** *** Predictions *)

Definition calculateStdDev (values : list float) : float :=
  if (length values =? 0)%nat then 0
  else
    let mean := sum values / of_nat (length values) in
    let variance :=
      fold_left (fun sum val => sum + Math_pow2 (val - mean)) values 0
      / of_nat (length values) in
    Math_sqrt variance.

Definition determineCareerTrajectory (player : Player) : Trajectory :=
  let experience := matchesPlayed player in
  let formAnalysis := analyzeForm player in
  if lt experience 50 then
    match formTrend formAnalysis with Rising => ascending | _ => steady end
  else if lt experience 150 then
    match currentForm formAnalysis with Excellent | Good => peak | _ => steady end
  else
    match formTrend formAnalysis with Declining => declining | _ => steady end.

Definition estimatePeakAge (player : Player) : float :=
  if String.eqb (role player) "Batsman" then 32
  else if String.eqb (role player) "Bowler" then 29 else 30.

Definition predictPlayerPerformance (player : Player) : PlayerPrediction :=
  let runs := runsPerMatch player in
  let wickets := wicketsPerMatch player in
  let avgRuns := if (0 <? length runs)%nat then sum runs / of_nat (length runs) else 0 in
  let avgWickets :=
    if (0 <? length wickets)%nat then sum wickets / of_nat (length wickets) else 0 in
  let stdDevRuns := calculateStdDev runs in
  let stdDevWickets := calculateStdDev wickets in
  let formAnalysis := analyzeForm player in
  let formMultiplier :=
    match formTrend formAnalysis with Rising => 1.1 | Declining => 0.9 | Stable => 1 end in
  let trajectory := determineCareerTrajectory player in
  {| nextMatchRuns :=
       {| range_min := Math_max 0 (Math_round (avgRuns - stdDevRuns));
          range_max := Math_round (avgRuns + stdDevRuns * 1.5);
          expected := Math_round (avgRuns * formMultiplier) |};
     nextMatchWickets :=
       {| range_min := Math_max 0 (Math_round (avgWickets - stdDevWickets));
          range_max := Math_round (avgWickets + stdDevWickets);
          expected := Math_round (avgWickets * formMultiplier) |};
     season_totalRuns := Math_round (avgRuns * 15 * formMultiplier);
     season_totalWickets := Math_round (avgWickets * 15 * formMultiplier);
     season_average := Math_round (battingAverage player * formMultiplier * 10) / 10;
     peakPerformanceAge := estimatePeakAge player;
     careerTrajectory := trajectory |}.

(** *** Team analytics: the methods that read [this.players] *)

Definition has_role (r : string) (p : Player) : Prop := String.eqb (role p) r = true.
#[global] Instance has_role_dec r p : Decision (has_role r p).
Proof. unfold has_role; apply _. Defined.

Definition calculateBattingDepth (this : AnalyticsEngine) : float :=
  let battingPlayers := filter (fun p => gt (battingAverage p) 20 = true) (players this) in
  let avgBattingAverage :=
    fold_left (fun sum p => sum + battingAverage p) battingPlayers 0
    / of_nat (length battingPlayers) in
  let depthScore := (of_nat (length battingPlayers) / 7) * 50 in
  let qualityScore := Math_min (avgBattingAverage * 1.5) 50 in
  depthScore + qualityScore.

Definition calculateBowlingStrength (this : AnalyticsEngine) : float :=
  let bowlingPlayers := filter (fun p => gt (wickets p) 10 = true) (players this) in
  let avgEconomy :=
    if (0 <? length bowlingPlayers)%nat
    then fold_left (fun sum p => sum + bowlingEconomy p) bowlingPlayers 0
         / of_nat (length bowlingPlayers)
    else 10 in
  let varietyScore := (of_nat (length bowlingPlayers) / 5) * 40 in
  let economyScore := Math_max (60 - avgEconomy * 6) 0 in
  varietyScore + economyScore.

Definition calculateFieldingEfficiency (this : AnalyticsEngine) : float :=
  let avgFielding :=
    fold_left (fun sum p => sum + fieldingRating p) (players this) 0
    / of_nat (length (players this)) in
  let catchRate :=
    fold_left (fun sum p => sum + catches p) (players this) 0
    / of_nat (length (players this)) / 10 in
  Math_min (avgFielding * 0.7 + catchRate * 30) 100.

Definition calculateTeamBalance (this : AnalyticsEngine) : float :=
  let count r := length (filter (has_role r) (players this)) in
  let Batsman := count "Batsman" in
  let Bowler := count "Bowler" in
  let AllRounder := count "All-Rounder" in
  let WicketKeeper := count "Wicket-Keeper" in
  let score := 100 in
  let score := if (Batsman <? 3)%nat || (6 <? Batsman)%nat then score - 20 else score in
  let score := if (Bowler <? 3)%nat || (6 <? Bowler)%nat then score - 20 else score in
  let score :=
    if (AllRounder <? 1)%nat || (4 <? AllRounder)%nat then score - 15 else score in
  let score :=
    if (WicketKeeper <? 1)%nat || (2 <? WicketKeeper)%nat then score - 10 else score in
  Math_max score 0.

Definition out_of_form (p : Player) : Prop :=
  match currentForm (analyzeForm p) with Poor | Critical => True | _ => False end.
#[global] Instance out_of_form_dec p : Decision (out_of_form p).
Proof. unfold out_of_form; destruct (currentForm _); apply _. Defined.

Definition in_form (p : Player) : Prop :=
  match currentForm (analyzeForm p) with Excellent | Good => True | _ => False end.
#[global] Instance in_form_dec p : Decision (in_form p).
Proof. unfold in_form; destruct (currentForm _); apply _. Defined.

(** [xs.push(s)] when [c] holds. *)
Definition push_if (c : bool) (s : string) (xs : list string) : list string :=
  if c then xs ++ [s] else xs.

Definition identifyWeaknesses (this : AnalyticsEngine)
    (batsmen bowlers allRounders keepers : list Player) : list string :=
  let weaknesses := [] in
  let weaknesses :=
    push_if (length batsmen <? 4)%nat "Insufficient batting depth" weaknesses in
  let weaknesses :=
    push_if (length bowlers <? 4)%nat "Limited bowling options" weaknesses in
  let weaknesses :=
    push_if (length allRounders <? 2)%nat "Lack of all-rounders" weaknesses in
  let weaknesses :=
    push_if (length keepers <? 1)%nat "No dedicated wicket-keeper" weaknesses in
  let avgFitness :=
    fold_left (fun sum p => sum + fitnessScore p) (players this) 0
    / of_nat (length (players this)) in
  let weaknesses :=
    push_if (lt avgFitness 80) "Overall team fitness below optimal" weaknesses in
  let poorFormPlayers := filter out_of_form (players this) in
  push_if (3 <=? length poorFormPlayers)%nat "Multiple players out of form" weaknesses.

Definition identifyStrengths (this : AnalyticsEngine)
    (batsmen bowlers allRounders keepers : list Player) : list string :=
  let strengths := [] in
  let topBatsmen := filter (fun p => gt (battingAverage p) 45 = true) batsmen in
  let strengths :=
    push_if (2 <=? length topBatsmen)%nat "Strong top-order batting" strengths in
  let topBowlers := filter (fun p => lt (bowlingEconomy p) 5 = true) bowlers in
  let strengths :=
    push_if (2 <=? length topBowlers)%nat "Economical bowling attack" strengths in
  let avgFielding :=
    fold_left (fun sum p => sum + fieldingRating p) (players this) 0
    / of_nat (length (players this)) in
  let strengths := push_if (gt avgFielding 80) "Excellent fielding unit" strengths in
  let strengths :=
    push_if (3 <=? length allRounders)%nat "Deep all-round capability" strengths in
  let inFormPlayers := filter in_form (players this) in
  push_if (ge (of_nat (length inFormPlayers)) (of_nat (length (players this)) * 0.6))
    "Majority of squad in good form" strengths.

Definition analyzeTeam (this : AnalyticsEngine) : TeamAnalytics :=
  let batsmen := filter (has_role "Batsman") (players this) in
  let bowlers := filter (has_role "Bowler") (players this) in
  let allRounders := filter (has_role "All-Rounder") (players this) in
  let keepers := filter (has_role "Wicket-Keeper") (players this) in
  let battingDepth := calculateBattingDepth this in
  let bowlingStrength := calculateBowlingStrength this in
  let fieldingEfficiency := calculateFieldingEfficiency this in
  let balanceScore := calculateTeamBalance this in
  let teamStrength :=
    (battingDepth + bowlingStrength + fieldingEfficiency + balanceScore) / 4 in
  let weaknesses := identifyWeaknesses this batsmen bowlers allRounders keepers in
  let strengths := identifyStrengths this batsmen bowlers allRounders keepers in
  {| teamStrength := round1 teamStrength;
     battingDepth := round1 battingDepth;
     bowlingStrength := round1 bowlingStrength;
     fieldingEfficiency := round1 fieldingEfficiency;
     balanceScore := round1 balanceScore;
     weaknesses := weaknesses;
     strengths := strengths |}.

(** *** Match simulation *)

Definition identifyKeyPlayers (this : AnalyticsEngine) : list Player :=
  let scored :=
    map (fun p => (p, overallRating (calculatePerformanceMetrics p))) (players this) in
  let sorted := sort_by (fun a b => snd b - snd a) scored in
  map fst (slice sorted 0 3).

Definition identifyRiskFactors (this : AnalyticsEngine) : list string :=
  let risks := [] in
  let lowFitness := filter (fun p => lt (fitnessScore p) 75 = true) (players this) in
  let risks :=
    push_if (0 <? length lowFitness)%nat
      (pretty (length lowFitness) ++ " player(s) with fitness concerns") risks in
  let outOfForm := filter out_of_form (players this) in
  let risks :=
    push_if (0 <? length outOfForm)%nat
      (pretty (length outOfForm) ++ " player(s) out of form") risks in
  let inexperienced := filter (fun p => lt (matchesPlayed p) 30 = true) (players this) in
  push_if (3 <=? length inexperienced)%nat "Several inexperienced players in squad" risks.

Definition generateRecommendations (this : AnalyticsEngine) : list string :=
  let recommendations := [] in
  let teamAnalytics := analyzeTeam this in
  let recommendations :=
    push_if (lt (battingDepth teamAnalytics) 70)
      "Consider promoting an all-rounder up the order" recommendations in
  let recommendations :=
    push_if (lt (bowlingStrength teamAnalytics) 70)
      "May need additional bowling support" recommendations in
  let topPerformers := identifyKeyPlayers this in
  recommendations
    ++ [("Rely on key players: " ++ String.concat ", " (map name topPerformers))%string].

Definition simulateMatch (this : AnalyticsEngine) (opponentStrength : float)
    : MatchPrediction :=
  let teamAnalytics := analyzeTeam this in
  let strengthDiff := teamStrength teamAnalytics - opponentStrength in
  let winProbability := Math_min (Math_max (50 + strengthDiff * 0.5) 10) 90 in
  let avgTeamRuns :=
    fold_left (fun sum p =>
      let avgRuns := JS.sum (runsPerMatch p) / of_nat (length (runsPerMatch p)) in
      sum + avgRuns) (players this) 0 in
  let avgTeamWickets :=
    fold_left (fun sum p =>
      let avgWickets := JS.sum (wicketsPerMatch p) / of_nat (length (wicketsPerMatch p)) in
      sum + avgWickets) (players this) 0 in
  let keyPlayers := identifyKeyPlayers this in
  let riskFactors := identifyRiskFactors this in
  let recommendations := generateRecommendations this in
  {| winProbability := Math_round winProbability;
     expectedRuns := Math_round avgTeamRuns;
     expectedWickets := Math_round avgTeamWickets;
     keyPlayers := keyPlayers;
     riskFactors := riskFactors;
     recommendations := recommendations |}.

(** The default value of [opponentStrength]. *)
Definition default_opponentStrength : float := 75.

(** *** Utility methods *)

Inductive Category := batting | bowling | fielding | overall.

Definition getTopPerformers (this : AnalyticsEngine) (category : Category)
    (count : Z) : list Player :=
  let scored :=
    map (fun p =>
      let metrics := calculatePerformanceMetrics p in
      let score :=
        match category with
        | batting => battingRating metrics
        | bowling => bowlingRating metrics
        | fielding => pm_fieldingRating metrics
        | overall => overallRating metrics
        end in
      (p, score)) (players this) in
  map fst (slice (sort_by (fun a b => snd b - snd a) scored) 0 count).

(** The default value of [count]. *)
Definition default_count : Z := 5.

Definition getPlayersInForm (this : AnalyticsEngine) : list Player :=
  filter in_form (players this).

Definition getPlayersOutOfForm (this : AnalyticsEngine) : list Player :=
  filter out_of_form (players this).

(** *** Engine objects and the module-level singleton

    Engines are objects: [new AnalyticsEngine(players)] creates one, callers
    hold references to it, and [updatePlayers] assigns its [players] field in
    place.  [engines] holds the objects that exist, in the order of their
    creation, and a reference is the position of its object there.
    [analyticsEngineInstance] is the one variable of the module; [None]
    stands for [null].  Rosters are values: no method of the engine assigns
    to an array it was given. *)
Definition Ref : Type := nat.

Record ModuleState := mkModuleState {
  engines : list AnalyticsEngine;
  analyticsEngineInstance : option Ref
}.

Definition Run (A : Type) : Type := ModuleState -> A * ModuleState.

(** The module as it is right after loading. *)
Definition fresh_module : ModuleState :=
  {| engines := []; analyticsEngineInstance := None |}.

(** [new AnalyticsEngine(players)]. *)
Definition new_AnalyticsEngine (ps : list Player) : Run Ref :=
  fun s =>
    (length (engines s),
     {| engines := engines s ++ [mkEngine ps];
        analyticsEngineInstance := analyticsEngineInstance s |}).

(** [engine.updatePlayers(players)] on the object behind the reference. *)
Definition updatePlayers_of (engine : Ref) (ps : list Player) : Run unit :=
  fun s =>
    (tt,
     {| engines := alter (fun this => updatePlayers this ps) engine (engines s);
        analyticsEngineInstance := analyticsEngineInstance s |}).

Definition getAnalyticsEngine (ps : list Player) : Run Ref :=
  fun s =>
    match analyticsEngineInstance s with
    | None =>
        let (created, s') := new_AnalyticsEngine ps s in
        (created, {| engines := engines s'; analyticsEngineInstance := Some created |})
    | Some instance =>
        let (_, s') := updatePlayers_of instance ps s in
        (instance, s')
    end.

(** A method of the engine called through a reference: it reads the object as
    it is at the time of the call and assigns nothing.  ([None] for a
    reference behind which there is no object.) *)
Definition invoke {A} (engine : Ref) (method : AnalyticsEngine -> A) : Run (option A) :=
  fun s => (method <$> engines s !! engine, s).

(** The module variable, when set, refers to an object that exists. *)
Definition instance_allocated (s : ModuleState) : Prop :=
  forall instance, analyticsEngineInstance s = Some instance ->
    (instance < length (engines s))%nat.

(** The state after the callers of [getAnalyticsEngine] have passed these
    rosters, one call after the other. *)
Definition after_calls (rosters : list (list Player)) (s : ModuleState) : ModuleState :=
  foldl (fun s ps => (getAnalyticsEngine ps s).2) s rosters.

End Analytics.

(** ** The DataService class

    The service keeps the roster, the settings and the history in the
    browser's [localStorage] as JSON text, and a time-stamped copy of the
    roster in a private cache.

    A string that is only ever handed to [JSON.parse] is represented by what
    [JSON.parse] makes of it ([json_text]); writing [JSON.stringify(v)] and
    parsing it back gives [v] as JSON can express it, which the [JSON_]
    functions compute.  Calls are taken one at a time (no other task runs
    between two [await]s) and [localStorage.setItem] is taken to succeed. *)

Module DataService.

Import JS.
Open Scope float_scope.

#[local] Set Implicit Arguments.

(** A property typed [number], as a stored document can hold it. *)
Inductive jsnum := Undefined | Null | Num (x : float).

(** The numeric value a [jsnum] has in arithmetic and comparisons. *)
Definition ToNumber (v : jsnum) : float :=
  match v with Undefined => nan | Null => 0 | Num x => x end.

(** Truthiness of a string property ([None] is [undefined]). *)
Definition truthy (s : option string) : bool :=
  match s with Some s => negb (String.eqb s "") | None => false end.

Inductive json_text (A : Type) := empty_string | unparsable | text (doc : A).
Arguments empty_string {A}.
Arguments unparsable {A}.

(** [JSON.parse]: [None] when it throws a [SyntaxError]. *)
Definition JSON_parse {A} (s : json_text A) : option A :=
  match s with empty_string | unparsable => None | text d => Some d end.

(** [localStorage.getItem(key)] under [if (stored)]: a missing item and the
    empty string are both falsy. *)
Definition if_stored {A} (stored : option (json_text A)) : option (json_text A) :=
  match stored with
  | None | Some empty_string => None
  | _ => stored
  end.

(** What is left of a number after [JSON.stringify] and [JSON.parse]: NaN and
    the infinities are written as [null], and [-0] as [0]. *)
Definition JSON_number (v : jsnum) : jsnum :=
  match v with
  | Num x => if is_finite x then (if x =? 0 then Num 0 else Num x) else Null
  | _ => v
  end.

(** The same for an array element, where [undefined] is written as [null]. *)
Definition JSON_element (v : jsnum) : jsnum :=
  match v with Undefined => Null | _ => JSON_number v end.

(** [String.prototype.trim] on strings of Latin-1 code units. *)
Definition is_whitespace (c : Ascii.ascii) : bool :=
  let n := Ascii.nat_of_ascii c in
  ((9 <=? n)%nat && (n <=? 13)%nat) || (n =? 32)%nat || (n =? 160)%nat.

Fixpoint trimStart (s : string) : string :=
  match s with
  | String c s' => if is_whitespace c then trimStart s' else s
  | EmptyString => EmptyString
  end.

Definition trim (s : string) : string :=
  String.rev (trimStart (String.rev (trimStart s))).

Definition STORAGE_KEY : string := "athleteEdge_players".
Definition SETTINGS_KEY : string := "athleteEdge_settings".
Definition HISTORY_KEY : string := "athleteEdge_history".

Record AppSettings := mkAppSettings {
  theme : string;
  autoSave : bool;
  analyticsRefreshRate : jsnum;
  showPredictions : bool;
  defaultView : string
}.

Inductive Action := add | update | delete.

Record HistoryEntry := mkHistoryEntry {
  h_id : string;
  timestamp : Z;
  action : Action;
  playerId : option string;
  playerName : option string;
  details : string
}.

Record DataServiceResponse (T : Type) := mkResponse {
  success : bool;
  data : option T;
  error : option string
}.

Definition ok {T} (d : T) : DataServiceResponse T :=
  {| success := true; data := Some d; error := None |}.
Definition ok_void : DataServiceResponse unit :=
  {| success := true; data := None; error := None |}.
Definition failure {T} (e : string) : DataServiceResponse T :=
  {| success := false; data := None; error := Some e |}.

Definition JSON_settings (s : AppSettings) : AppSettings :=
  {| theme := theme s;
     autoSave := autoSave s;
     analyticsRefreshRate := JSON_number (analyticsRefreshRate s);
     showPredictions := showPredictions s;
     defaultView := defaultView s |}.

Section Service.

(** The properties of a player that the service never names (avatar, fours,
    sixes, the advanced statistics, ...) and what a JSON round trip makes of
    them: the [Player] interface is declared in [@/data/players]. *)
Variable Extra : Type.
Variable JSON_extra : Extra -> Extra.

(** A player as the service handles it: any property may be missing. *)
Record Player := mkPlayer {
  id : option string;
  name : option string;
  role : option string;
  image : option string;
  battingAverage : jsnum;
  strikeRate : jsnum;
  bowlingEconomy : jsnum;
  fitnessScore : jsnum;
  totalRuns : jsnum;
  wickets : jsnum;
  matchesPlayed : jsnum;
  runsPerMatch : option (list jsnum);
  wicketsPerMatch : option (list jsnum);
  extra : Extra
}.

(** [Partial<Player>]: [None] for a property the object does not have. *)
Record PartialPlayer := mkPartial {
  u_id : option (option string);
  u_name : option (option string);
  u_role : option (option string);
  u_image : option (option string);
  u_battingAverage : option jsnum;
  u_strikeRate : option jsnum;
  u_bowlingEconomy : option jsnum;
  u_fitnessScore : option jsnum;
  u_totalRuns : option jsnum;
  u_wickets : option jsnum;
  u_matchesPlayed : option jsnum;
  u_runsPerMatch : option (option (list jsnum));
  u_wicketsPerMatch : option (option (list jsnum));
  u_extra : Extra -> Extra
}.

(** [{ ...player, ...updates }]. *)
Definition spread (player : Player) (updates : PartialPlayer) : Player :=
  {| id := default (id player) (u_id updates);
     name := default (name player) (u_name updates);
     role := default (role player) (u_role updates);
     image := default (image player) (u_image updates);
     battingAverage := default (battingAverage player) (u_battingAverage updates);
     strikeRate := default (strikeRate player) (u_strikeRate updates);
     bowlingEconomy := default (bowlingEconomy player) (u_bowlingEconomy updates);
     fitnessScore := default (fitnessScore player) (u_fitnessScore updates);
     totalRuns := default (totalRuns player) (u_totalRuns updates);
     wickets := default (wickets player) (u_wickets updates);
     matchesPlayed := default (matchesPlayed player) (u_matchesPlayed updates);
     runsPerMatch := default (runsPerMatch player) (u_runsPerMatch updates);
     wicketsPerMatch := default (wicketsPerMatch player) (u_wicketsPerMatch updates);
     extra := u_extra updates (extra player) |}.

Definition set_image (player : Player) (i : option string) : Player :=
  spread player
    {| u_id := None; u_name := None; u_role := None; u_image := Some i;
       u_battingAverage := None; u_strikeRate := None; u_bowlingEconomy := None;
       u_fitnessScore := None; u_totalRuns := None; u_wickets := None;
       u_matchesPlayed := None; u_runsPerMatch := None; u_wicketsPerMatch := None;
       u_extra := fun e => e |}.

Definition set_id (player : Player) (i : option string) : Player :=
  spread player
    {| u_id := Some i; u_name := None; u_role := None; u_image := None;
       u_battingAverage := None; u_strikeRate := None; u_bowlingEconomy := None;
       u_fitnessScore := None; u_totalRuns := None; u_wickets := None;
       u_matchesPlayed := None; u_runsPerMatch := None; u_wicketsPerMatch := None;
       u_extra := fun e => e |}.

Definition JSON_player (p : Player) : Player :=
  {| id := id p;
     name := name p;
     role := role p;
     image := image p;
     battingAverage := JSON_number (battingAverage p);
     strikeRate := JSON_number (strikeRate p);
     bowlingEconomy := JSON_number (bowlingEconomy p);
     fitnessScore := JSON_number (fitnessScore p);
     totalRuns := JSON_number (totalRuns p);
     wickets := JSON_number (wickets p);
     matchesPlayed := JSON_number (matchesPlayed p);
     runsPerMatch := map JSON_element <$> runsPerMatch p;
     wicketsPerMatch := map JSON_element <$> wicketsPerMatch p;
     extra := JSON_extra (extra p) |}.

Definition JSON_roster (ps : list Player) : list Player := map JSON_player ps.

(** The document that [exportData] writes and [importData] reads. *)
Record ExportData := mkExportData {
  version : option string;
  exportDate : option Z;
  e_players : option (list Player);
  e_settings : option AppSettings;
  e_history : option (list HistoryEntry)
}.

Definition JSON_stringify_export (d : ExportData) : json_text ExportData :=
  text {| version := version d;
          exportDate := exportDate d;
          e_players := JSON_roster <$> e_players d;
          e_settings := JSON_settings <$> e_settings d;
          e_history := e_history d |}.

Record CacheEntry := mkCacheEntry { c_data : list Player; c_timestamp : Z }.

(** The state the service works on: the three [localStorage] items, the
    private cache, and how often the clock and the random generator have been
    read. *)
Record World := mkWorld {
  ls_players : option (json_text (list Player));
  ls_settings : option (json_text AppSettings);
  ls_history : option (json_text (list HistoryEntry));
  cache : gmap string CacheEntry;
  ticks : nat;
  draws : nat
}.

Definition set_ls_players (v : option (json_text (list Player))) (w : World) : World :=
  mkWorld v (ls_settings w) (ls_history w) (cache w) (ticks w) (draws w).
Definition set_ls_settings (v : option (json_text AppSettings)) (w : World) : World :=
  mkWorld (ls_players w) v (ls_history w) (cache w) (ticks w) (draws w).
Definition set_ls_history (v : option (json_text (list HistoryEntry))) (w : World) : World :=
  mkWorld (ls_players w) (ls_settings w) v (cache w) (ticks w) (draws w).
Definition set_cache (v : gmap string CacheEntry) (w : World) : World :=
  mkWorld (ls_players w) (ls_settings w) (ls_history w) v (ticks w) (draws w).
Definition set_ticks (v : nat) (w : World) : World :=
  mkWorld (ls_players w) (ls_settings w) (ls_history w) (cache w) v (draws w).
Definition set_draws (v : nat) (w : World) : World :=
  mkWorld (ls_players w) (ls_settings w) (ls_history w) (cache w) (ticks w) v.

(** Methods are state transformers. *)
Definition M (A : Type) : Type := World -> A * World.
Definition ret {A} (a : A) : M A := fun w => (a, w).
Definition bind {A B} (m : M A) (k : A -> M B) : M B :=
  fun w => let (a, w') := m w in k a w'.
Definition gets {A} (f : World -> A) : M A := fun w => (f w, w).
Definition modify (f : World -> World) : M unit := fun w => (tt, f w).

Notation "'let*' x ':=' m 'in' k" := (bind m (fun x => k))
  (at level 10, x name, m at level 100, k at level 200).
Notation "'run' m 'then' k" := (bind m (fun _ => k))
  (at level 10, m at level 100, k at level 200).

(** The roster the application starts with, from [@/data/players]; the clock
    ([Date.now()] at its n-th reading) and the random suffixes that
    [Math.random().toString(36).substr(2, 9)] yields. *)
Variable initialPlayers : list Player.
Variable clock : nat -> Z.
Variable random : nat -> string.

Definition Date_now : M Z :=
  fun w => (clock (ticks w), set_ticks (S (ticks w)) w).
Definition Math_random_suffix : M string :=
  fun w => (random (draws w), set_draws (S (draws w)) w).

(** *** Cache management *)

Definition cacheExpiry : Z := 5 * 60 * 1000.

Definition getFromCache (key : string) : M (option (list Player)) :=
  let* cached := gets (fun w => cache w !! key) in
  match cached with
  | Some c =>
      let* now := Date_now in
      ret (if (now - c_timestamp c <? cacheExpiry)%Z then Some (c_data c) else None)
  | None => ret None
  end.

Definition setCache (key : string) (d : list Player) : M unit :=
  let* now := Date_now in
  modify (fun w => set_cache (<[key := mkCacheEntry d now]> (cache w)) w).

Definition clearCache : M unit := modify (set_cache ∅).

(** *** Utilities *)

Definition generateId : M string :=
  let* now := Date_now in
  let* r := Math_random_suffix in
  ret (pretty now ++ "-" ++ r)%string.

(** *** Validation *)

Definition out_of_range (v : jsnum) (lo hi : float) : bool :=
  match v with
  | Undefined => false
  | _ => lt (ToNumber v) lo || gt (ToNumber v) hi
  end.

(** What the range test lets through: a missing property, NaN (every
    comparison with NaN is false), or a number within the bounds. *)
Definition within_or_nan (v : jsnum) (lo hi : float) : Prop :=
  match v with
  | Undefined => True
  | _ => is_nan (ToNumber v) = true \/ in_range lo hi (ToNumber v)
  end.

Definition validatePlayer (player : Player) : DataServiceResponse unit :=
  if negb (truthy (name player))
     || (String.length (trim (default "" (name player))) <? 2)%nat
  then failure "Player name must be at least 2 characters"
  else if negb (truthy (role player))
     || negb (bool_decide (default "" (role player)
                  ∈ ["Batsman"; "Bowler"; "All-Rounder"; "Wicket-Keeper"]))
  then failure "Invalid player role"
  else if out_of_range (battingAverage player) 0 100
  then failure "Batting average must be between 0 and 100"
  else if out_of_range (strikeRate player) 0 300
  then failure "Strike rate must be between 0 and 300"
  else if out_of_range (bowlingEconomy player) 0 20
  then failure "Bowling economy must be between 0 and 20"
  else if out_of_range (fitnessScore player) 0 100
  then failure "Fitness score must be between 0 and 100"
  else ok_void.

(** [isValidPlayerData] of statsUtils.ts, which the forms call before they
    submit: it collects every message instead of stopping at the first. *)
Definition isValidPlayerData (data : Player) : bool * list string :=
  let errors := [] in
  let errors :=
    if negb (truthy (name data))
       || (String.length (trim (default "" (name data))) <? 2)%nat
    then errors ++ ["Name must be at least 2 characters"] else errors in
  let errors :=
    if negb (truthy (role data))
       || negb (bool_decide (default "" (role data)
                    ∈ ["Batsman"; "Bowler"; "All-Rounder"; "Wicket-Keeper"]))
    then errors ++ ["Invalid role"] else errors in
  let errors :=
    if out_of_range (battingAverage data) 0 100
    then errors ++ ["Batting average must be between 0 and 100"] else errors in
  let errors :=
    if out_of_range (strikeRate data) 0 300
    then errors ++ ["Strike rate must be between 0 and 300"] else errors in
  let errors :=
    if out_of_range (fitnessScore data) 0 100
    then errors ++ ["Fitness score must be between 0 and 100"] else errors in
  ((length errors =? 0)%nat, errors).

(** *** Player operations *)

(** [p.id === player.id || p.name === player.name]. *)
Definition same_player (player p : Player) : Prop :=
  id p = id player \/ name p = name player.
#[global] Instance same_player_dec player p : Decision (same_player player p).
Proof. unfold same_player; apply _. Defined.

(** The function that [syncPlayerImages] maps over the roster. *)
Definition sync_one (player : Player) : Player :=
  match list_find (same_player player) initialPlayers with
  | Some (_, initialPlayer) =>
      if truthy (image initialPlayer)
      then set_image player (image initialPlayer) else player
  | None => player
  end.

Definition syncPlayerImages (players : list Player) : list Player :=
  map (fun player =>
    let initialPlayer := snd <$> list_find (same_player player) initialPlayers in
    match initialPlayer with
    | Some ip => if truthy (image ip) then set_image player (image ip) else player
    | None => player
    end) players.

Definition savePlayers (players : list Player) : M (DataServiceResponse unit) :=
  run modify (set_ls_players (Some (text (JSON_roster players)))) then
  run setCache STORAGE_KEY players then
  ret ok_void.

Definition getAllPlayers : M (DataServiceResponse (list Player)) :=
  let* cached := getFromCache STORAGE_KEY in
  match cached with
  | Some cached =>
      let playersWithImages := syncPlayerImages cached in
      ret (ok playersWithImages)
  | None =>
      let* stored := gets ls_players in
      match if_stored stored with
      | Some stored =>
          match JSON_parse stored with
          | Some players =>
              let playersWithImages := syncPlayerImages players in
              run setCache STORAGE_KEY playersWithImages then
              run modify (set_ls_players (Some (text (JSON_roster playersWithImages)))) then
              ret (ok playersWithImages)
          | None => ret (failure "Failed to load players")
          end
      | None =>
          run savePlayers initialPlayers then
          ret (ok initialPlayers)
      end
  end.

(** *** History *)

Definition getHistory (limit : option Z) : M (DataServiceResponse (list HistoryEntry)) :=
  let* stored := gets ls_history in
  match if_stored stored with
  | Some stored =>
      match JSON_parse stored with
      | Some history =>
          let history :=
            match limit with
            | Some l => if (l =? 0)%Z then history else slice_from history (- l)
            | None => history
            end in
          ret (ok history)
      | None => ret (failure "Failed to load history")
      end
  | None => ret (ok [])
  end.

Definition addHistoryEntry (a : Action) (pid pname : option string) (d : string)
    : M unit :=
  let* response := getHistory None in
  let history := default [] (data response) in
  let* newId := generateId in
  let* now := Date_now in
  let newEntry :=
    {| h_id := newId; timestamp := now; action := a;
       playerId := pid; playerName := pname; details := d |} in
  let updatedHistory := slice_from history (-99) ++ [newEntry] in
  modify (set_ls_history (Some (text updatedHistory))).

Definition clearHistory : M (DataServiceResponse unit) :=
  run modify (set_ls_history None) then ret ok_void.

Definition has_id (i : string) (p : Player) : Prop := id p = Some i.
#[global] Instance has_id_dec i p : Decision (has_id i p).
Proof. unfold has_id; apply _. Defined.

Definition addPlayer (playerData : Player) : M (DataServiceResponse Player) :=
  let validation := validatePlayer playerData in
  if negb (success validation)
  then ret {| success := false; data := None; error := error validation |}
  else
    let* response := getAllPlayers in
    match success response, data response with
    | true, Some players =>
        let* newId := generateId in
        let newPlayer := set_id playerData (Some newId) in
        let updatedPlayers := players ++ [newPlayer] in
        run savePlayers updatedPlayers then
        run addHistoryEntry add (id newPlayer) (name newPlayer)
              ("Added " ++ default "undefined" (role newPlayer) ++ " to squad") then
        ret (ok newPlayer)
    | _, _ => ret (failure "Failed to fetch players")
    end.

Definition updatePlayer (i : string) (updates : PartialPlayer)
    : M (DataServiceResponse Player) :=
  let* response := getAllPlayers in
  match success response, data response with
  | true, Some players =>
      match list_find (has_id i) players with
      | None => ret (failure "Player not found")
      | Some (playerIndex, player) =>
          let updatedPlayer := spread player updates in
          let validation := validatePlayer updatedPlayer in
          if negb (success validation)
          then ret {| success := false; data := None; error := error validation |}
          else
            let updatedPlayers := <[playerIndex := updatedPlayer]> players in
            run savePlayers updatedPlayers then
            run addHistoryEntry update (Some i) (name updatedPlayer)
                  "Updated player stats" then
            ret (ok updatedPlayer)
      end
  | _, _ => ret (failure "Failed to fetch players")
  end.

Definition deletePlayer (i : string) : M (DataServiceResponse unit) :=
  let* response := getAllPlayers in
  match success response, data response with
  | true, Some players =>
      match list_find (has_id i) players with
      | None => ret (failure "Player not found")
      | Some (_, player) =>
          let updatedPlayers := filter (fun p => ¬ has_id i p) players in
          run savePlayers updatedPlayers then
          run addHistoryEntry delete (Some i) (name player) "Removed from squad" then
          ret ok_void
      end
  | _, _ => ret (failure "Failed to fetch players")
  end.

Definition getPlayerById (i : string) : M (DataServiceResponse Player) :=
  let* response := getAllPlayers in
  match success response, data response with
  | true, Some players =>
      match list_find (has_id i) players with
      | None => ret (failure "Player not found")
      | Some (_, player) => ret (ok player)
      end
  | _, _ => ret (failure "Failed to fetch players")
  end.

(** *** Player statistics *)

Definition recalculateBattingAverage (player : Player) (newRuns : float) : float :=
  let totalRuns := ToNumber (totalRuns player) + newRuns in
  let matches := ToNumber (matchesPlayed player) + 1 in
  Math_round ((totalRuns / matches) * 100) / 100.

Record MatchStats := mkMatchStats { runs : float; ms_wickets : float }.

Definition updatePlayerStats (i : string) (matchStats : MatchStats)
    : M (DataServiceResponse Player) :=
  let* playerResponse := getPlayerById i in
  match success playerResponse, data playerResponse with
  | true, Some player =>
      match runsPerMatch player, wicketsPerMatch player with
      | Some playerRuns, Some playerWickets =>
          let updatedPlayer :=
            {| u_id := None; u_name := None; u_role := None; u_image := None;
               u_strikeRate := None; u_bowlingEconomy := None; u_fitnessScore := None;
               u_extra := fun e => e;
               u_totalRuns := Some (Num (ToNumber (totalRuns player) + runs matchStats));
               u_wickets := Some (Num (ToNumber (wickets player) + ms_wickets matchStats));
               u_matchesPlayed := Some (Num (ToNumber (matchesPlayed player) + 1));
               u_runsPerMatch :=
                 Some (Some (slice_from playerRuns (-9) ++ [Num (runs matchStats)]));
               u_wicketsPerMatch :=
                 Some (Some (slice_from playerWickets (-9) ++ [Num (ms_wickets matchStats)]));
               u_battingAverage :=
                 Some (Num (recalculateBattingAverage player (runs matchStats))) |} in
          updatePlayer i updatedPlayer
      | _, _ => ret (failure "Failed to update player stats")
      end
  | _, _ => ret (failure "Player not found")
  end.

(** *** Settings *)

Definition saveSettings (settings : AppSettings) : M (DataServiceResponse unit) :=
  run modify (set_ls_settings (Some (text (JSON_settings settings)))) then
  ret ok_void.

Definition defaultSettings : AppSettings :=
  {| theme := "neon"; autoSave := true; analyticsRefreshRate := Num 30;
     showPredictions := true; defaultView := "analytics" |}.

Definition getSettings : M (DataServiceResponse AppSettings) :=
  let* stored := gets ls_settings in
  match if_stored stored with
  | Some stored =>
      match JSON_parse stored with
      | Some settings => ret (ok settings)
      | None => ret (failure "Failed to load settings")
      end
  | None =>
      run saveSettings defaultSettings then
      ret (ok defaultSettings)
  end.

(** *** Data export and import *)

Definition exportData : M (DataServiceResponse (json_text ExportData)) :=
  let* players := getAllPlayers in
  let* settings := getSettings in
  let* history := getHistory None in
  let* today := Date_now in
  let exportData :=
    {| version := Some "1.0";
       exportDate := Some today;
       e_players := data players;
       e_settings := data settings;
       e_history := data history |} in
  ret (ok (JSON_stringify_export exportData)).

(** The validation loop of [importData]: the response of the first player that
    fails, if any. *)
Fixpoint first_invalid (players : list Player) : option (DataServiceResponse unit) :=
  match players with
  | [] => None
  | player :: rest =>
      let validation := validatePlayer player in
      if negb (success validation) then Some validation else first_invalid rest
  end.

Definition importData (jsonData : json_text ExportData) : M (DataServiceResponse unit) :=
  match JSON_parse jsonData with
  | None => ret (failure "Failed to import data")
  | Some data =>
      match truthy (version data), e_players data with
      | true, Some players =>
          match first_invalid players with
          | Some validation =>
              ret (failure ("Invalid player data: " ++ default "undefined" (error validation)))
          | None =>
              run savePlayers players then
              run match e_settings data with
                  | Some settings => saveSettings settings
                  | None => ret ok_void
                  end then
              ret ok_void
          end
      | _, _ => ret (failure "Invalid data format")
      end
  end.

Definition resetToDefaults : M (DataServiceResponse unit) :=
  run savePlayers initialPlayers then
  run clearCache then
  ret ok_void.

(** *** Search and filter *)

(** The [filters] argument of [filterPlayers]; [None] for a criterion that is
    not given.  An empty role string counts as not given. *)
Record Filters := mkFilters {
  f_role : option string;
  minBattingAverage : option float;
  maxBowlingEconomy : option float;
  minFitnessScore : option float
}.

Definition filterPlayers (filters : Filters) : M (DataServiceResponse (list Player)) :=
  let* response := getAllPlayers in
  match success response, data response with
  | true, Some players =>
      let filtered := players in
      let filtered :=
        if truthy (f_role filters)
        then filter (fun p => role p = f_role filters) filtered else filtered in
      let filtered :=
        match minBattingAverage filters with
        | Some m => filter (fun p => ge (ToNumber (battingAverage p)) m = true) filtered
        | None => filtered
        end in
      let filtered :=
        match maxBowlingEconomy filters with
        | Some m => filter (fun p => le (ToNumber (bowlingEconomy p)) m = true) filtered
        | None => filtered
        end in
      let filtered :=
        match minFitnessScore filters with
        | Some m => filter (fun p => ge (ToNumber (fitnessScore p)) m = true) filtered
        | None => filtered
        end in
      ret (ok filtered)
  | _, _ => ret (failure "Failed to fetch players")
  end.

(** The stored roster [ps] is settled when loading it changes nothing: it
    already carries the images [syncPlayerImages] would give it, it is written
    the way [JSON.stringify] writes, and a cached copy, if there is one, loads
    to the same roster. *)
Definition roster_settled (w : World) (ps : list Player) : Prop :=
  ls_players w = Some (text ps)
  /\ JSON_roster (syncPlayerImages ps) = ps
  /\ (forall c : CacheEntry,
        cache w !! STORAGE_KEY = Some c ->
        JSON_roster (syncPlayerImages (c_data c)) = ps).

End Service.

End DataService.

(** * Sample inputs used in the evaluations below *)

Module Samples.

Import JS Analytics.
Open Scope float_scope.

(** A bowler credited with five wickets and no match. *)
Definition wickets_without_matches : Player :=
  {| id := "p1"; name := "Reserve Bowler"; role := "Bowler";
     battingAverage := 0; strikeRate := 0; bowlingEconomy := 6;
     fitnessScore := 80; fieldingRating := 70; totalRuns := 0;
     wickets := 5; matchesPlayed := 0; fours := 0; sixes := 0; catches := 0;
     runsPerMatch := []; wicketsPerMatch := [] |}.

(** A batsman with one six and no four. *)
Definition six_hitter : Player :=
  {| id := "p2"; name := "Six Hitter"; role := "Batsman";
     battingAverage := 6; strikeRate := 100; bowlingEconomy := 0;
     fitnessScore := 80; fieldingRating := 70; totalRuns := 6;
     wickets := 0; matchesPlayed := 1; fours := 0; sixes := 1; catches := 0;
     runsPerMatch := [6]; wicketsPerMatch := [0] |}.

(** A tail-ender: nobody in a roster of such players averages above 20. *)
Definition tail_ender : Player :=
  {| id := "p3"; name := "Tail Ender"; role := "Bowler";
     battingAverage := 12; strikeRate := 70; bowlingEconomy := 7;
     fitnessScore := 85; fieldingRating := 60; totalRuns := 120;
     wickets := 8; matchesPlayed := 10; fours := 10; sixes := 1; catches := 3;
     runsPerMatch := [10; 14; 12]; wicketsPerMatch := [1; 0; 2] |}.

(** The scores of four matches, oldest first. *)
Definition recent_scores : list float := [12; 48; 35; 61].

(** Two callers of [getAnalyticsEngine]: the first passes a roster of one
    batsman to the freshly loaded module and keeps the engine it gets; the
    second then passes a roster of one bowler. *)
Definition first_caller : Ref * ModuleState :=
  getAnalyticsEngine [six_hitter] fresh_module.

Definition second_caller : Ref * ModuleState :=
  getAnalyticsEngine [tail_ender] first_caller.2.

(** The key players of the match prediction, a team-level result. *)
Definition predicted_key_players (this : AnalyticsEngine) : list Player :=
  keyPlayers (simulateMatch this default_opponentStrength).

End Samples.

Module ServiceSamples.

Import JS DataService.
Open Scope float_scope.

(** Players with no property beyond those the service names. *)
Definition asha : Player unit :=
  {| id := Some "1"; name := Some "Asha Rao"; role := Some "Batsman";
     image := Some "/players/asha.png";
     battingAverage := Num 42.5; strikeRate := Num 131; bowlingEconomy := Num 0;
     fitnessScore := Num 88; totalRuns := Num 850; wickets := Num 2;
     matchesPlayed := Num 20;
     runsPerMatch :=
       Some [Num 12; Num 40; Num 7; Num 55; Num 61; Num 0; Num 33; Num 18;
             Num 74; Num 29; Num 45];
     wicketsPerMatch := Some [Num 0; Num 1; Num 0];
     extra := tt |}.

(** The same player as a form might submit her: no image yet. *)
Definition asha_without_image : Player unit :=
  set_image asha None.

(** A player whose name is one character long. *)
Definition short_name : Player unit :=
  {| id := Some "2"; name := Some "Q"; role := Some "Bowler"; image := None;
     battingAverage := Num 9; strikeRate := Num 60; bowlingEconomy := Num 7.5;
     fitnessScore := Num 80; totalRuns := Num 90; wickets := Num 14;
     matchesPlayed := Num 10;
     runsPerMatch := Some [Num 9]; wicketsPerMatch := Some [Num 2];
     extra := tt |}.

Definition JSON_unit (e : unit) : unit := e.
Definition initial_roster : list (Player unit) := [asha].
Definition ticking_clock (n : nat) : Z := 1700000000000 + Z.of_nat n.
Definition fixed_suffix (n : nat) : string := "k3x9q2m1z".

Definition empty_world : World unit :=
  {| ls_players := None; ls_settings := None; ls_history := None;
     cache := ∅; ticks := 0; draws := 0 |}.

(** A browser that holds [roster] in storage and nothing in the cache. *)
Definition stored_world (roster : list (Player unit)) : World unit :=
  {| ls_players := Some (text roster); ls_settings := None; ls_history := None;
     cache := ∅; ticks := 0; draws := 0 |}.

(** The state right after [savePlayers roster] in a fresh browser, as the
    auto-save of the player context leaves it. *)
Definition saved_world (roster : list (Player unit)) : World unit :=
  (savePlayers JSON_unit ticking_clock roster empty_world).2.

(** An update that touches the fitness score only. *)
Definition fitter : PartialPlayer unit :=
  {| u_id := None; u_name := None; u_role := None; u_image := None;
     u_battingAverage := None; u_strikeRate := None; u_bowlingEconomy := None;
     u_fitnessScore := Some (Num 91); u_totalRuns := None; u_wickets := None;
     u_matchesPlayed := None; u_runsPerMatch := None; u_wicketsPerMatch := None;
     u_extra := fun e => e |}.

(** A history of three actions, oldest first, and a browser that holds it. *)
Definition sample_history : list HistoryEntry :=
  [ {| h_id := "1700000000000-k3x9q2m1z"; timestamp := 1700000000001;
       action := add; playerId := Some "1"; playerName := Some "Asha Rao";
       details := "Added Batsman to squad" |};
    {| h_id := "1700000000060-k3x9q2m1z"; timestamp := 1700000000061;
       action := update; playerId := Some "1"; playerName := Some "Asha Rao";
       details := "Updated player stats" |};
    {| h_id := "1700000000120-k3x9q2m1z"; timestamp := 1700000000121;
       action := delete; playerId := Some "2"; playerName := Some "Q";
       details := "Removed from squad" |} ].

Definition logged_world : World unit :=
  {| ls_players := None; ls_settings := None;
     ls_history := Some (text sample_history);
     cache := ∅; ticks := 0; draws := 0 |}.

End ServiceSamples.

(** * Properties of the statistics helpers *)

Section StatsUtilsFacts.

Import JS StatsUtils Samples.
Open Scope float_scope.

(** ** The exponential moving average *)

Lemma ema_loop_length (alpha : float) (values : list float) (n i : nat)
    (result : list float) :
  length (ema_loop alpha values n i result) = (length result + n)%nat.
Proof.
  revert i result; induction n as [|n IH]; intros i result; simpl.
  - lia.
  - rewrite IH, length_app; simpl; lia.
Qed.

(** The loop only appends: what is in [result] stays where it is. *)
Lemma ema_loop_prefix (alpha : float) (values : list float) (n i : nat)
    (result : list float) (j : nat) :
  (j < length result)%nat ->
  ema_loop alpha values n i result !! j = result !! j.
Proof.
  revert i result; induction n as [|n IH]; intros i result Hj; simpl.
  - reflexivity.
  - rewrite IH by (rewrite length_app; simpl; lia).
    apply lookup_app_l; assumption.
Qed.

(** Each element the loop appends is the weighted mean of the input at that
    index and of the element appended just before. *)
Lemma ema_loop_step (alpha : float) (values : list float) (n : nat)
    (result : list float) (j : nat) (v e : float) :
  (length result <= S j < length result + n)%nat ->
  (0 < length result)%nat ->
  values !! S j = Some v ->
  ema_loop alpha values n (length result) result !! j = Some e ->
  ema_loop alpha values n (length result) result !! S j
  = Some (alpha * v + (1 - alpha) * e).
Proof.
  revert result; induction n as [|n IH]; intros result Hj Hpos Hv He; [lia|].
  simpl in *.
  set (x := alpha * idx values (length result)
            + (1 - alpha) * idx result (length result - 1)) in *.
  assert (Hlen : length (result ++ [x]) = S (length result))
    by (rewrite length_app; simpl; lia).
  destruct (decide (S j = length result)) as [Heq|Hne].
  - rewrite <- Hlen, ema_loop_prefix by (rewrite Hlen; lia).
    rewrite <- Hlen in He. rewrite ema_loop_prefix in He by (rewrite Hlen; lia).
    rewrite lookup_app_l in He by lia.
    rewrite lookup_app_r by lia.
    rewrite <- Heq, Nat.sub_diag; simpl.
    subst x. unfold idx. rewrite <- Heq, Hv; simpl.
    replace (j - 0)%nat with j by lia. rewrite He. reflexivity.
  - rewrite <- Hlen in *. apply IH; [lia | lia | assumption | assumption].
Qed.

(** ** Guards that hold for every player with no match played *)

Lemma per_match_zero (p : Player) :
  strict_eq (matchesPlayed p) 0 = true ->
  calculateRunsPerMatch p = 0 /\ calculateWicketsPerMatch p = 0.
Proof.
  intros H. unfold calculateRunsPerMatch, calculateWicketsPerMatch.
  rewrite H. split; reflexivity.
Qed.

Lemma bowling_index_no_wicket (p : Player) :
  strict_eq (wickets p) 0 = true -> calculateBowlingIndex p = 0.
Proof. intros H. unfold calculateBowlingIndex. rewrite H. reflexivity. Qed.

Lemma calculateConsistencyScore_len (values : list float) :
  (length values < 2)%nat -> calculateConsistencyScore values = 50.
Proof.
  intros Hlen. unfold calculateConsistencyScore.
  destruct (Nat.ltb_spec (length values) 2) as [_|Hge]; [reflexivity | lia].
Qed.

(** C5: [calculateConsistencyScore] returns exactly 50 for every list of
    fewer than two values, the empty list included. *)
Theorem calculateConsistencyScore_short (values : list float) :
  (length values < 2)%nat -> calculateConsistencyScore values = 50.
Proof.
  destruct values as [|v [|v' rest]]; simpl; intros Hlen.
  - reflexivity.
  - reflexivity.
  - lia.
Qed.

Lemma calculateConsistencyScore_short_witness :
  calculateConsistencyScore [] = 50 /\ calculateConsistencyScore [37] = 50.
Proof.
  split.
  - apply (calculateConsistencyScore_short []). simpl. lia.
  - apply (calculateConsistencyScore_short [37]). simpl. lia.
Defined.

(** C6: [compareValues a b] is ['equal'] whenever [|a - b| < 0.01]; otherwise
    it is ['higher'] if [a > b], and ['lower'] in every remaining case. *)
Theorem compareValues_spec (a b : float) :
  (lt (Math_abs (a - b)) 0.01 = true -> compareValues a b = equal)
  /\ (lt (Math_abs (a - b)) 0.01 = false -> gt a b = true ->
      compareValues a b = higher)
  /\ (lt (Math_abs (a - b)) 0.01 = false -> gt a b = false ->
      compareValues a b = lower).
Proof.
  unfold compareValues.
  split; [|split]; intros Hnear; rewrite Hnear; try reflexivity;
    intros Hgt; rewrite Hgt; reflexivity.
Qed.

Lemma compareValues_spec_witness :
  compareValues 41.5 41.495 = equal
  /\ compareValues 52 38.5 = higher
  /\ compareValues 38.5 52 = lower
  /\ compareValues nan 1 = lower.
Proof.
  split; [|split; [|split]].
  - apply (proj1 (compareValues_spec 41.5 41.495)). reflexivity.
  - apply (proj1 (proj2 (compareValues_spec 52 38.5))); reflexivity.
  - apply (proj2 (proj2 (compareValues_spec 38.5 52))); reflexivity.
  - apply (proj2 (proj2 (compareValues_spec nan 1))); reflexivity.
Defined.

(** C7: the exponential moving average has the length of its input, starts
    with the first input value, and each later element is
    [alpha * values[i] + (1 - alpha) * ema[i - 1]]; on two or more values
    [predictNextValue] is the last element of the average taken with
    [alpha = 0.4], times 1.05, 1 or 0.95. *)
Theorem exponential_moving_average_spec (values : list float) (alpha : float) :
  length (calculateExponentialMovingAverage values alpha) = length values
  /\ calculateExponentialMovingAverage values alpha !! 0%nat = values !! 0%nat
  /\ (forall (i : nat) (v e : float),
        values !! S i = Some v ->
        calculateExponentialMovingAverage values alpha !! i = Some e ->
        calculateExponentialMovingAverage values alpha !! S i
        = Some (alpha * v + (1 - alpha) * e))
  /\ ((2 <= length values)%nat ->
      exists lastEma m : float,
        last (calculateExponentialMovingAverage values 0.4) = Some lastEma
        /\ m ∈ [1.05; 1; 0.95]
        /\ predictNextValue values = lastEma * m).
Proof.
  assert (Hlen : forall al,
    length (calculateExponentialMovingAverage values al) = length values).
  { intros al. unfold calculateExponentialMovingAverage.
    destruct values as [|v0 vs]; [reflexivity|].
    simpl. rewrite ema_loop_length. simpl. lia. }
  split; [apply Hlen|]. split; [|split].
  - unfold calculateExponentialMovingAverage.
    destruct values as [|v0 vs]; [reflexivity|].
    simpl. rewrite ema_loop_prefix by (simpl; lia). reflexivity.
  - intros i v e Hv He. revert He.
    unfold calculateExponentialMovingAverage.
    destruct values as [|v0 vs]; [discriminate|].
    apply lookup_lt_Some in Hv as Hi. simpl in Hi.
    replace ((length (v0 :: vs) =? 0)%nat) with false by reflexivity.
    intros He.
    apply (ema_loop_step alpha (v0 :: vs) (length (v0 :: vs) - 1) [idx (v0 :: vs) 0]);
      simpl; try lia; assumption.
  - intros H2. unfold predictNextValue.
    destruct (Nat.eqb_spec (length values) 0) as [|_]; [lia|].
    destruct (Nat.eqb_spec (length values) 1) as [|_]; [lia|].
    set (ema := calculateExponentialMovingAverage values 0.4).
    assert (Hl : length ema = length values) by apply Hlen.
    destruct (last ema) as [lastEma|] eqn:Hlast.
    2:{ apply last_None in Hlast. rewrite Hlast in Hl. simpl in Hl. lia. }
    exists lastEma.
    assert (Hidx : idx ema (length ema - 1) = lastEma).
    { unfold idx. rewrite last_lookup in Hlast.
      replace (length ema - 1)%nat with (Nat.pred (length ema)) by lia.
      rewrite Hlast. reflexivity. }
    rewrite Hidx.
    destruct (calculateTrendDirection values);
      [exists 1.05 | exists 0.95 | exists 1];
      (split; [reflexivity | split; [set_solver | reflexivity]]).
Qed.

(** C4, as stated, fails: with one six and no four the ratio is [Infinity],
    which is neither 0 nor finite; and on an all-zero series the consistency
    score's guard answers 50, not 0. *)
Lemma six_to_four_ratio_infinite :
  strict_eq (fours six_hitter) 0 = true
  /\ calculateSixToFourRatio six_hitter = infinity
  /\ is_finite (calculateSixToFourRatio six_hitter) = false
  /\ strict_eq (calculateMean [0; 0]) 0 = true
  /\ calculateConsistencyScore [0; 0] = 50.
Proof. repeat split. Qed.

End StatsUtilsFacts.

(** * Properties of the analytics engine *)

Section AnalyticsFacts.

Import JS Analytics Samples.
Open Scope float_scope.

Lemma bowling_rating_no_wicket (p : Player) :
  strict_eq (wickets p) 0 = true -> calculateBowlingRating p = 0.
Proof. intros H. unfold calculateBowlingRating. rewrite H. reflexivity. Qed.

(** C1 on the code: for a player with no match played the runs and the wickets
    per match are 0, but both bowling ratings test [wickets], not
    [matchesPlayed], and divide by the zero match count: five wickets in no
    match give an infinite wicket rate, a rating of 100 and an index of 59. *)
Theorem bowling_rating_divides_by_zero_matches :
  strict_eq (matchesPlayed wickets_without_matches) 0 = true
  /\ calculateRunsPerMatch wickets_without_matches = 0
  /\ calculateWicketsPerMatch wickets_without_matches = 0
  /\ wickets wickets_without_matches / matchesPlayed wickets_without_matches = infinity
  /\ calculateBowlingRating wickets_without_matches = 100
  /\ calculateBowlingIndex wickets_without_matches = 59.
Proof. repeat split. Qed.

(** C2 on the code: [calculateBattingDepth] divides by the number of players
    who average above 20 without testing it (its sibling
    [calculateBowlingStrength] does test), so for the empty roster, and for a
    roster of tail-enders, the team strength is NaN and so is the win
    probability: the clamp lets NaN through and the result is not in
    [10, 90]. *)
Theorem simulateMatch_win_probability_nan :
  calculateBattingDepth (mkEngine []) = nan
  /\ calculateBowlingStrength (mkEngine []) = 0
  /\ teamStrength (analyzeTeam (mkEngine [])) = nan
  /\ winProbability (simulateMatch (mkEngine []) default_opponentStrength) = nan
  /\ calculateBattingDepth (mkEngine [tail_ender; tail_ender]) = nan
  /\ winProbability (simulateMatch (mkEngine [tail_ender; tail_ender]) 75) = nan
  /\ le 10 (winProbability (simulateMatch (mkEngine [tail_ender; tail_ender]) 75))
     && le (winProbability (simulateMatch (mkEngine [tail_ender; tail_ender]) 75)) 90
     = false.
Proof. vm_compute. repeat split. Qed.

(** C4, as the code has it: a divisor that may be zero is tested first in the
    functions listed here; the result is then 0, except that
    [calculateConsistencyScore], [calculateConsistency] and
    [calculateFormIndex] answer their neutral 50,
    [calculatePercentageDifference] answers 100 for a positive numerator and
    [calculateSixToFourRatio] answers [Infinity] when there are sixes and no
    fours.  The bowling ratings are 0 when no wicket was taken. *)
Theorem zero_divisor_guards :
  calculateMean [] = 0
  /\ calculateStandardDeviation [] = 0
  /\ calculateVariance [] = 0
  /\ calculateStdDev [] = 0
  /\ (forall value mean stdDev : float,
        strict_eq stdDev 0 = true -> calculateZScore value mean stdDev = 0)
  /\ (forall value min max : float,
        strict_eq max min = true -> normalizeValue value min max = 0)
  /\ (forall p : Player,
        strict_eq (totalRuns p) 0 = true ->
        calculateStrikeRotation p = 0 /\ calculateBoundaryPercentage p = 0)
  /\ (forall p : Player,
        strict_eq (matchesPlayed p) 0 = true ->
        calculateRunsPerMatch p = 0 /\ calculateWicketsPerMatch p = 0)
  /\ (forall p : Player,
        strict_eq (wickets p) 0 = true ->
        calculateBowlingIndex p = 0 /\ calculateBowlingRating p = 0)
  /\ (forall a b : float,
        strict_eq b 0 = true ->
        calculatePercentageDifference a b = if gt a 0 then 100 else 0)
  /\ (forall p : Player,
        strict_eq (fours p) 0 = true ->
        calculateSixToFourRatio p = if gt (sixes p) 0 then infinity else 0)
  /\ (forall values : list float,
        (length values < 2)%nat \/ strict_eq (calculateMean values) 0 = true ->
        calculateConsistencyScore values = 50)
  /\ (forall p : Player,
        runsPerMatch p = [] ->
        calculateConsistency p = 50 /\ calculateFormIndex p = 50).
Proof.
  split; [reflexivity|]. split; [reflexivity|]. split; [reflexivity|].
  split; [reflexivity|].
  split; [intros v m sd H; unfold calculateZScore; rewrite H; reflexivity|].
  split; [intros v lo hi H; unfold normalizeValue; rewrite H; reflexivity|].
  split.
  { intros p H. unfold calculateStrikeRotation, calculateBoundaryPercentage.
    rewrite H. split; reflexivity. }
  split; [apply per_match_zero|].
  split.
  { intros p H. split; [apply bowling_index_no_wicket | apply bowling_rating_no_wicket];
      exact H. }
  split; [intros a b H; unfold calculatePercentageDifference; rewrite H; reflexivity|].
  split; [intros p H; unfold calculateSixToFourRatio; rewrite H; reflexivity|].
  split.
  { intros values [Hlen|Hmean].
    - apply calculateConsistencyScore_len; assumption.
    - unfold calculateConsistencyScore. rewrite Hmean.
      destruct (length values <? 2)%nat; reflexivity. }
  intros p H. unfold calculateConsistency, calculateFormIndex. rewrite H.
  split; reflexivity.
Qed.

(** ** The engine as shared state *)

Lemma getAnalyticsEngine_instance (ps : list Player) (s : ModuleState) :
  instance_allocated s ->
  analyticsEngineInstance (getAnalyticsEngine ps s).2 = Some (getAnalyticsEngine ps s).1
  /\ engines (getAnalyticsEngine ps s).2 !! (getAnalyticsEngine ps s).1
     = Some (mkEngine ps)
  /\ instance_allocated (getAnalyticsEngine ps s).2.
Proof.
  intros Hs. unfold getAnalyticsEngine, instance_allocated in *.
  destruct (analyticsEngineInstance s) as [instance|] eqn:Hinstance; cbn.
  - specialize (Hs instance eq_refl).
    split; [exact Hinstance|]. split.
    + rewrite list_lookup_alter_eq.
      destruct (lookup_lt_is_Some_2 _ _ Hs) as [this Hthis]. rewrite Hthis.
      reflexivity.
    + intros r Hr. rewrite length_alter. congruence.
  - split; [reflexivity|]. split.
    + rewrite lookup_app_r by lia. rewrite Nat.sub_diag. reflexivity.
    + intros r [= <-]. rewrite length_app. cbn. lia.
Qed.

Lemma getAnalyticsEngine_same (ps : list Player) (s : ModuleState) (instance : Ref) :
  analyticsEngineInstance s = Some instance ->
  (getAnalyticsEngine ps s).1 = instance
  /\ length (engines (getAnalyticsEngine ps s).2) = length (engines s).
Proof.
  intros Hinstance. unfold getAnalyticsEngine. rewrite Hinstance. cbn.
  split; [reflexivity | apply length_alter].
Qed.

Lemma getAnalyticsEngine_frame (ps : list Player) (s : ModuleState) (other : Ref) :
  other <> (getAnalyticsEngine ps s).1 ->
  engines (getAnalyticsEngine ps s).2 !! other = engines s !! other.
Proof.
  unfold getAnalyticsEngine.
  destruct (analyticsEngineInstance s) as [instance|]; cbn; intros Hother.
  - apply list_lookup_alter_ne. congruence.
  - destruct (Nat.lt_ge_cases other (length (engines s))) as [Hlt|Hge].
    + apply lookup_app_l. exact Hlt.
    + rewrite (lookup_ge_None_2 (engines s)) by exact Hge.
      apply lookup_ge_None_2. rewrite length_app. cbn. lia.
Qed.

(** However many callers come in between, the module keeps the instance it
    has. *)
Lemma after_calls_instance (rosters : list (list Player)) (s : ModuleState)
    (instance : Ref) :
  instance_allocated s ->
  analyticsEngineInstance s = Some instance ->
  instance_allocated (after_calls rosters s)
  /\ analyticsEngineInstance (after_calls rosters s) = Some instance
  /\ length (engines (after_calls rosters s)) = length (engines s).
Proof.
  revert s. induction rosters as [|ps rosters IH]; intros s Hs Hinstance.
  - repeat split; assumption.
  - cbn [after_calls foldl]. fold (after_calls rosters (getAnalyticsEngine ps s).2).
    destruct (getAnalyticsEngine_instance ps s Hs) as (Hvar & _ & Hs').
    destruct (getAnalyticsEngine_same ps s instance Hinstance) as [Hsame Hlen].
    rewrite Hsame in Hvar.
    destruct (IH _ Hs' Hvar) as (Hwf & Hafter & Hlength).
    split; [exact Hwf|]. split; [exact Hafter|]. congruence.
Qed.




End AnalyticsFacts.

(** * Properties of the data service *)

Section DataServiceFacts.

Import JS DataService.
Open Scope float_scope.

Context {Extra : Type} (JSON_extra : Extra -> Extra).
Context (initialPlayers : list (Player Extra)).
Context (clock : nat -> Z) (random : nat -> string).

Implicit Types (w : World Extra) (p : Player Extra) (ps : list (Player Extra)).

(** ** The validation loop *)

Lemma first_invalid_None ps :
  first_invalid ps = None <-> Forall (fun p => success (validatePlayer p) = true) ps.
Proof.
  induction ps as [|p ps IH]; simpl.
  - split; [constructor | reflexivity].
  - destruct (success (validatePlayer p)) eqn:Hp; simpl.
    + rewrite IH. split; [intros H; constructor; assumption|].
      intros H. apply Forall_cons in H as [_ H]. exact H.
    + split; [discriminate|].
      intros H. apply Forall_cons in H as [H _]. congruence.
Qed.

Lemma first_invalid_Some ps (v : DataServiceResponse unit) :
  first_invalid ps = Some v -> success v = false.
Proof.
  induction ps as [|p ps IH]; simpl; [discriminate|].
  destruct (success (validatePlayer p)) eqn:Hp; simpl; [exact IH|].
  intros [= <-]. exact Hp.
Qed.

(** ** What the writers leave behind *)

Lemma bind_eq {A B} (m : M Extra A) (k : A -> M Extra B) w :
  bind m k w = k (m w).1 (m w).2.
Proof. unfold bind. destruct (m w); reflexivity. Qed.

Lemma savePlayers_stored ps w :
  ls_players (savePlayers JSON_extra clock ps w).2
  = Some (text (JSON_roster JSON_extra ps)).
Proof. reflexivity. Qed.

Lemma saveSettings_players (s : AppSettings) w :
  ls_players (saveSettings s w).2 = ls_players w.
Proof. reflexivity. Qed.

(** C9: [importData] saves nothing unless the whole payload is accepted.  A
    payload that does not parse, that has no version or no players, or in
    which some player fails [validatePlayer] gets an unsuccessful response,
    and an unsuccessful response leaves the roster, the settings and the rest
    of the state as they were; a successful one means every player passed and
    the payload's players are what is stored. *)
Theorem importData_atomic (jsonData : json_text (ExportData Extra)) w :
  (success (importData JSON_extra clock jsonData w).1 = false ->
   (importData JSON_extra clock jsonData w).2 = w)
  /\ (JSON_parse jsonData = None ->
      success (importData JSON_extra clock jsonData w).1 = false)
  /\ (forall d : ExportData Extra,
        JSON_parse jsonData = Some d ->
        truthy (version d) = false
        \/ e_players d = None
        \/ (exists ps p, e_players d = Some ps /\ p ∈ ps
                         /\ success (validatePlayer p) = false) ->
        success (importData JSON_extra clock jsonData w).1 = false)
  /\ (success (importData JSON_extra clock jsonData w).1 = true ->
      exists (d : ExportData Extra) ps,
        JSON_parse jsonData = Some d
        /\ truthy (version d) = true
        /\ e_players d = Some ps
        /\ Forall (fun p => success (validatePlayer p) = true) ps
        /\ ls_players (importData JSON_extra clock jsonData w).2
           = Some (text (JSON_roster JSON_extra ps))).
Proof.
  unfold importData.
  destruct (JSON_parse jsonData) as [d|] eqn:Hparse; simpl.
  2:{ split; [reflexivity|]. split; [reflexivity|].
      split; [intros d [=]|discriminate]. }
  destruct (truthy (version d)) eqn:Hversion; simpl.
  2:{ split; [reflexivity|]. split; [discriminate|].
      split; [reflexivity|discriminate]. }
  destruct (e_players d) as [ps|] eqn:Hplayers; simpl.
  2:{ split; [reflexivity|]. split; [discriminate|].
      split; [reflexivity|discriminate]. }
  destruct (first_invalid ps) as [v|] eqn:Hloop; simpl.
  { split; [reflexivity|]. split; [discriminate|].
    split; [reflexivity|discriminate]. }
  apply first_invalid_None in Hloop as Hall.
  split.
  { destruct (e_players d); destruct (e_settings d); discriminate. }
  split; [discriminate|].
  split.
  - intros d' [= <-] [Hv|[Hp|(ps' & p & Hps' & Hin & Hbad)]].
    + congruence.
    + congruence.
    + rewrite Hplayers in Hps'. injection Hps' as <-.
      rewrite Forall_forall in Hall. specialize (Hall p Hin). congruence.
  - intros _. exists d, ps.
    split; [reflexivity|]. split; [assumption|]. split; [assumption|].
    split; [assumption|].
    destruct (e_settings d); reflexivity.
Qed.

(** ** Recording a match *)

(** [l.slice(-k)] keeps at most [k] elements, for a positive [k]. *)
Lemma slice_from_neg_length {A} (l : list A) (k : positive) :
  (length (slice_from l (Z.neg k)) <= Pos.to_nat k)%nat.
Proof.
  unfold slice_from, rel_index. simpl.
  rewrite length_drop. lia.
Qed.

Lemma last_snoc_slice {A} (l : list A) (k : Z) (x : A) :
  last (slice_from l k ++ [x]) = Some x.
Proof. apply last_snoc. Qed.

Lemma addHistoryEntry_players (a : Action) (pid pname : option string)
    (d : string) w :
  ls_players (addHistoryEntry (Extra := Extra) clock random a pid pname d w).2
  = ls_players w.
Proof.
  unfold addHistoryEntry, getHistory, bind, gets; simpl.
  destruct (ls_history w) as [[| |h]|]; reflexivity.
Qed.

Lemma updatePlayer_success (i : string) (updates : PartialPlayer Extra) w
    (response : DataServiceResponse (Player Extra)) w' :
  updatePlayer JSON_extra initialPlayers clock random i updates w = (response, w') ->
  success response = true ->
  exists ps (k : nat) p,
    data (getAllPlayers JSON_extra initialPlayers clock w).1 = Some ps
    /\ list_find (has_id i) ps = Some (k, p)
    /\ success (validatePlayer (spread p updates)) = true
    /\ data response = Some (spread p updates)
    /\ ls_players w' = Some (text (JSON_roster JSON_extra (<[k := spread p updates]> ps))).
Proof.
  unfold updatePlayer. rewrite bind_eq. unfold ret.
  destruct (getAllPlayers JSON_extra initialPlayers clock w) as [r1 w1] eqn:Hall.
  simpl.
  destruct (success r1); [|intros ? ?; by simplify_eq/=].
  destruct (data r1) as [ps|] eqn:Hdata; [|intros ? ?; by simplify_eq/=].
  destruct (list_find (has_id i) ps) as [[k p]|] eqn:Hfind;
    [|intros ? ?; by simplify_eq/=].
  destruct (success (validatePlayer (spread p updates))) eqn:Hvalid; simpl;
    [|intros ? ?; by simplify_eq/=].
  rewrite !bind_eq. unfold ret. intros Heq _.
  apply (f_equal fst) in Heq as Hresponse. apply (f_equal snd) in Heq as Hworld.
  simpl in Hresponse, Hworld. subst response w'.
  exists ps, k, p. simpl. repeat (split; [done|]).
  rewrite addHistoryEntry_players. apply savePlayers_stored.
Qed.

(** C10: a successful [updatePlayerStats] answers with the player as updated:
    the two per-match arrays hold at most ten values and end with the runs and
    wickets just recorded, [matchesPlayed] is the old count plus 1 and
    [totalRuns] the old total plus the recorded runs; and that player is in
    the roster the call has stored. *)
Theorem updatePlayerStats_success (i : string) (matchStats : MatchStats) w
    (response : DataServiceResponse (Player Extra)) w' :
  updatePlayerStats JSON_extra initialPlayers clock random i matchStats w
  = (response, w') ->
  success response = true ->
  exists (player updated : Player Extra) (rs ws : list jsnum) ps,
    data (getPlayerById JSON_extra initialPlayers clock i w).1 = Some player
    /\ data response = Some updated
    /\ runsPerMatch updated = Some rs
    /\ (length rs <= 10)%nat
    /\ last rs = Some (Num (runs matchStats))
    /\ wicketsPerMatch updated = Some ws
    /\ (length ws <= 10)%nat
    /\ last ws = Some (Num (ms_wickets matchStats))
    /\ matchesPlayed updated = Num (ToNumber (matchesPlayed player) + 1)
    /\ totalRuns updated = Num (ToNumber (totalRuns player) + runs matchStats)
    /\ ls_players w' = Some (text (JSON_roster JSON_extra ps))
    /\ updated ∈ ps.
Proof.
  unfold updatePlayerStats. rewrite bind_eq. unfold ret.
  destruct (getPlayerById JSON_extra initialPlayers clock i w) as [r1 w1] eqn:Hget.
  simpl.
  destruct (success r1); [|intros ? ?; by simplify_eq/=].
  destruct (data r1) as [player|] eqn:Hplayer; [|intros ? ?; by simplify_eq/=].
  destruct (runsPerMatch player) as [playerRuns|] eqn:Hruns;
    [|intros ? ?; by simplify_eq/=].
  destruct (wicketsPerMatch player) as [playerWickets|] eqn:Hwickets;
    [|intros ? ?; by simplify_eq/=].
  intros Hupdate Hok.
  destruct (updatePlayer_success _ _ _ _ _ Hupdate Hok)
    as (ps & k & p & _ & Hfind & _ & Hdata & Hstored).
  eexists player, _, _, _, _.
  split; [reflexivity|]. split; [exact Hdata|]. simpl.
  split; [reflexivity|].
  split.
  { rewrite length_app. pose proof (slice_from_neg_length playerRuns 9). simpl. lia. }
  split; [apply last_snoc|].
  split; [reflexivity|].
  split.
  { rewrite length_app. pose proof (slice_from_neg_length playerWickets 9). simpl. lia. }
  split; [apply last_snoc|].
  split; [reflexivity|]. split; [reflexivity|].
  split; [exact Hstored|].
  apply list_find_Some in Hfind as (Hk & _ & _).
  apply list_elem_of_lookup. exists k.
  apply list_lookup_insert_eq. apply lookup_lt_Some in Hk. exact Hk.
Qed.

(** ** Export, then import *)

Lemma JSON_number_idem (v : jsnum) : JSON_number (JSON_number v) = JSON_number v.
Proof.
  destruct v as [| |x]; simpl; try reflexivity.
  destruct (is_finite x) eqn:Hfin; [|reflexivity].
  destruct (x =? 0) eqn:Hzero; simpl.
  - reflexivity.
  - rewrite Hfin, Hzero. reflexivity.
Qed.

Lemma JSON_element_idem (v : jsnum) : JSON_element (JSON_element v) = JSON_element v.
Proof.
  destruct v as [| |x]; simpl; try reflexivity.
  destruct (is_finite x) eqn:Hfin; [|reflexivity].
  destruct (x =? 0) eqn:Hzero; simpl.
  - reflexivity.
  - rewrite Hfin, Hzero. reflexivity.
Qed.

Lemma JSON_elements_idem (l : option (list jsnum)) :
  map JSON_element <$> (map JSON_element <$> l) = map JSON_element <$> l.
Proof.
  destruct l as [l|]; simpl; [|reflexivity].
  f_equal. rewrite map_map. apply map_ext. intros v. apply JSON_element_idem.
Qed.

(** Where a successful [getAllPlayers] takes its roster from: the cache, the
    stored text, or, when nothing is stored, the initial roster. *)
Lemma getAllPlayers_view w (view : list (Player Extra)) :
  data (getAllPlayers JSON_extra initialPlayers clock w).1 = Some view ->
  (exists c, cache w !! STORAGE_KEY = Some c /\ view = syncPlayerImages initialPlayers (c_data c))
  \/ (exists ps, ls_players w = Some (text ps) /\ view = syncPlayerImages initialPlayers ps)
  \/ (if_stored (ls_players w) = None /\ view = initialPlayers).
Proof.
  unfold getAllPlayers, getFromCache. rewrite !bind_eq. unfold gets, ret. simpl.
  destruct (cache w !! STORAGE_KEY) as [c|] eqn:Hcache.
  - rewrite bind_eq. unfold ret. simpl.
    destruct (clock (ticks w) - c_timestamp c <? cacheExpiry)%Z; simpl.
    + intros [= <-]. left. exists c. split; reflexivity.
    + rewrite bind_eq. simpl.
      destruct (ls_players w) as [[| |ps]|] eqn:Hls; simpl; rewrite ?bind_eq; simpl.
      * intros [= <-]. right; right. split; reflexivity.
      * discriminate.
      * intros [= <-]. right; left. exists ps. split; reflexivity.
      * intros [= <-]. right; right. split; reflexivity.
  - simpl. rewrite bind_eq. simpl.
    destruct (ls_players w) as [[| |ps]|] eqn:Hls; simpl; rewrite ?bind_eq; simpl.
    + intros [= <-]. right; right. split; reflexivity.
    + discriminate.
    + intros [= <-]. right; left. exists ps. split; reflexivity.
    + intros [= <-]. right; right. split; reflexivity.
Qed.

Lemma exportData_players w :
  exists d : ExportData Extra,
    data (exportData JSON_extra initialPlayers clock w).1 = Some (text d)
    /\ version d = Some "1.0"
    /\ e_players d
       = JSON_roster JSON_extra <$> data (getAllPlayers JSON_extra initialPlayers clock w).1.
Proof.
  unfold exportData. rewrite !bind_eq. unfold ret, JSON_stringify_export. simpl.
  eexists. split; [reflexivity|]. split; reflexivity.
Qed.

Section RoundTrip.

Hypothesis JSON_extra_idem : forall e : Extra, JSON_extra (JSON_extra e) = JSON_extra e.

Lemma JSON_player_idem p :
  JSON_player JSON_extra (JSON_player JSON_extra p) = JSON_player JSON_extra p.
Proof using JSON_extra_idem.
  unfold JSON_player; simpl.
  rewrite !JSON_number_idem, !JSON_elements_idem, JSON_extra_idem. reflexivity.
Qed.

Lemma JSON_roster_idem ps :
  JSON_roster JSON_extra (JSON_roster JSON_extra ps) = JSON_roster JSON_extra ps.
Proof using JSON_extra_idem.
  unfold JSON_roster. rewrite map_map. apply map_ext. intros p. apply JSON_player_idem.
Qed.

(** C3, as the code has it: when [getAllPlayers] succeeds and every player
    of the roster it returns passes [validatePlayer] once written as JSON,
    [exportData] followed by [importData] of the exported text succeeds and
    stores that roster; the stored roster is then identical to the one before
    the export whenever that one was settled. *)
Theorem export_import_roundtrip w (view : list (Player Extra)) :
  data (getAllPlayers JSON_extra initialPlayers clock w).1 = Some view ->
  Forall (fun p => success (validatePlayer p) = true) (JSON_roster JSON_extra view) ->
  exists exported : json_text (ExportData Extra),
    data (exportData JSON_extra initialPlayers clock w).1 = Some exported
    /\ success (importData JSON_extra clock exported
                  (exportData JSON_extra initialPlayers clock w).2).1 = true
    /\ ls_players (importData JSON_extra clock exported
                     (exportData JSON_extra initialPlayers clock w).2).2
       = Some (text (JSON_roster JSON_extra view))
    /\ (forall ps, roster_settled JSON_extra initialPlayers w ps ->
          ls_players (importData JSON_extra clock exported
                        (exportData JSON_extra initialPlayers clock w).2).2
          = ls_players w).
Proof using JSON_extra_idem.
  intros Hview Hvalid.
  destruct (exportData_players w) as (d & Hdoc & Hversion & Hplayers).
  rewrite Hview in Hplayers. simpl in Hplayers.
  exists (text d). split; [exact Hdoc|].
  set (w1 := (exportData JSON_extra initialPlayers clock w).2).
  apply first_invalid_None in Hvalid.
  assert (Himport :
    success (importData JSON_extra clock (text d) w1).1 = true
    /\ ls_players (importData JSON_extra clock (text d) w1).2
       = Some (text (JSON_roster JSON_extra view))).
  { unfold importData. simpl. rewrite Hversion, Hplayers. simpl. rewrite Hvalid.
    rewrite !bind_eq. unfold ret. simpl.
    split; [reflexivity|].
    destruct (e_settings d); simpl; rewrite JSON_roster_idem; reflexivity. }
  destruct Himport as [Hsuccess Hstored].
  split; [exact Hsuccess|]. split; [exact Hstored|].
  intros ps (Hls & Hfix & Hcache). rewrite Hstored, Hls. do 2 f_equal.
  destruct (getAllPlayers_view w view Hview)
    as [(c & Hc & ->)|[(ps' & Hps' & ->)|[Hnone _]]].
  - apply Hcache. exact Hc.
  - rewrite Hls in Hps'. injection Hps' as <-. exact Hfix.
  - rewrite Hls in Hnone. discriminate.
Qed.

End RoundTrip.

End DataServiceFacts.

(** * The data service on sample states *)

Section DataServiceSamples.

Import JS DataService ServiceSamples.
Open Scope float_scope.

Lemma updatePlayerStats_success_witness :
  exists (player updated : Player unit) (rs ws : list jsnum) ps,
    data (getPlayerById JSON_unit initial_roster ticking_clock "1"
            (stored_world [asha])).1 = Some player
    /\ data (updatePlayerStats JSON_unit initial_roster ticking_clock fixed_suffix "1"
               (mkMatchStats 64 1) (stored_world [asha])).1 = Some updated
    /\ runsPerMatch updated = Some rs
    /\ (length rs <= 10)%nat
    /\ last rs = Some (Num 64)
    /\ wicketsPerMatch updated = Some ws
    /\ (length ws <= 10)%nat
    /\ last ws = Some (Num 1)
    /\ matchesPlayed updated = Num (ToNumber (matchesPlayed player) + 1)
    /\ totalRuns updated = Num (ToNumber (totalRuns player) + 64)
    /\ ls_players (updatePlayerStats JSON_unit initial_roster ticking_clock fixed_suffix
                     "1" (mkMatchStats 64 1) (stored_world [asha])).2
       = Some (text (JSON_roster JSON_unit ps))
    /\ updated ∈ ps.
Proof.
  apply (updatePlayerStats_success JSON_unit initial_roster ticking_clock fixed_suffix
           "1" (mkMatchStats 64 1) (stored_world [asha])).
  - apply surjective_pairing.
  - vm_compute. reflexivity.
Defined.

Lemma export_import_roundtrip_witness :
  exists exported : json_text (ExportData unit),
    data (exportData JSON_unit initial_roster ticking_clock (stored_world [asha])).1
    = Some exported
    /\ success (importData JSON_unit ticking_clock exported
                  (exportData JSON_unit initial_roster ticking_clock
                     (stored_world [asha])).2).1 = true
    /\ ls_players (importData JSON_unit ticking_clock exported
                     (exportData JSON_unit initial_roster ticking_clock
                        (stored_world [asha])).2).2
       = Some (text (JSON_roster JSON_unit [asha]))
    /\ (forall ps, roster_settled JSON_unit initial_roster (stored_world [asha]) ps ->
          ls_players (importData JSON_unit ticking_clock exported
                        (exportData JSON_unit initial_roster ticking_clock
                           (stored_world [asha])).2).2
          = ls_players (stored_world [asha])).
Proof.
  apply (export_import_roundtrip JSON_unit initial_roster ticking_clock).
  - intros e. reflexivity.
  - vm_compute. reflexivity.
  - repeat constructor.
Defined.

(** C3, as stated, fails in two ways.  A stored roster with a player that
    [validatePlayer] rejects is exported but not imported again; and a roster
    saved without the image of an initial player is exported with that image,
    so that the import stores a roster that differs from the one before. *)
Lemma export_import_not_identity :
  (exists exported : json_text (ExportData unit),
     data (exportData JSON_unit initial_roster ticking_clock
             (stored_world [asha; short_name])).1 = Some exported
     /\ success (importData JSON_unit ticking_clock exported
                   (exportData JSON_unit initial_roster ticking_clock
                      (stored_world [asha; short_name])).2).1 = false)
  /\ (exists exported : json_text (ExportData unit),
        data (exportData JSON_unit initial_roster ticking_clock
                (saved_world [asha_without_image])).1 = Some exported
        /\ ls_players (saved_world [asha_without_image])
           = Some (text [asha_without_image])
        /\ success (importData JSON_unit ticking_clock exported
                      (exportData JSON_unit initial_roster ticking_clock
                         (saved_world [asha_without_image])).2).1 = true
        /\ ls_players (importData JSON_unit ticking_clock exported
                         (exportData JSON_unit initial_roster ticking_clock
                            (saved_world [asha_without_image])).2).2
           = Some (text [asha])).
Proof.
  split.
  - eexists. split; [vm_compute; reflexivity|]. vm_compute. reflexivity.
  - eexists. split; [vm_compute; reflexivity|].
    split; [vm_compute; reflexivity|].
    split; vm_compute; reflexivity.
Qed.

(** [importData] on sample payloads: one that does not parse, and one whose
    second player is rejected; neither touches the stored roster. *)
Lemma importData_rejections :
  importData JSON_unit ticking_clock unparsable (stored_world [asha])
  = (failure "Failed to import data", stored_world [asha])
  /\ importData JSON_unit ticking_clock
       (text {| version := Some "1.0"; exportDate := None;
                e_players := Some [asha; short_name];
                e_settings := Some defaultSettings; e_history := None |})
       (stored_world [asha])
     = (failure "Invalid player data: Player name must be at least 2 characters",
        stored_world [asha]).
Proof. split; reflexivity. Qed.

End DataServiceSamples.

(** * Ordering of numbers

    Facts about [<] and [<=] on binary64 numbers, from the specification of
    the primitive operations. *)

Section NumberOrder.

Import JS.
Open Scope float_scope.

Lemma SFcompare_antisym (x y : spec_float) :
  SFcompare y x = CompOpp <$> SFcompare x y.
Proof.
  destruct x as [s1| s1 | | s1 m1 e1], y as [s2| s2 | | s2 m2 e2]; simpl;
    try reflexivity; try (destruct s1; reflexivity); try (destruct s2; reflexivity);
    try (destruct s1, s2; reflexivity).
  destruct s1, s2; simpl; try reflexivity;
    rewrite (Z.compare_antisym e1 e2); destruct (e1 ?= e2)%Z; simpl; try reflexivity;
    rewrite (Pos.compare_cont_antisym m1 m2 Eq); simpl; try reflexivity.
Qed.

Lemma is_nan_spec (x : float) : is_nan x = true <-> Prim2SF x = S754_nan.
Proof.
  unfold is_nan. rewrite FloatAxioms.eqb_spec. unfold SFeqb.
  destruct (Prim2SF x) as [s|s| |s m e]; simpl.
  - split; discriminate.
  - destruct s; split; discriminate.
  - split; reflexivity.
  - destruct s; rewrite Z.compare_refl, Pos.compare_cont_refl; simpl; split; discriminate.
Qed.

Lemma ltb_false_leb (a b : float) :
  is_nan a = false -> is_nan b = false -> (a <? b) = false -> (b <=? a) = true.
Proof.
  intros Ha Hb. rewrite FloatAxioms.ltb_spec, FloatAxioms.leb_spec. unfold SFltb, SFleb.
  rewrite (SFcompare_antisym (Prim2SF a) (Prim2SF b)).
  destruct (SFcompare (Prim2SF a) (Prim2SF b)) as [[]|] eqn:Hc; simpl; try done.
  exfalso.
  assert (Prim2SF a <> S754_nan) by (rewrite <- is_nan_spec; congruence).
  assert (Prim2SF b <> S754_nan) by (rewrite <- is_nan_spec; congruence).
  destruct (Prim2SF a), (Prim2SF b); simpl in Hc; congruence.
Qed.

Lemma ltb_leb (a b : float) : (a <? b) = true -> (a <=? b) = true.
Proof.
  rewrite FloatAxioms.ltb_spec, FloatAxioms.leb_spec. unfold SFltb, SFleb.
  destruct (SFcompare (Prim2SF a) (Prim2SF b)) as [[]|]; done.
Qed.

Lemma leb_not_nan (a b : float) : (a <=? b) = true -> is_nan a = false /\ is_nan b = false.
Proof.
  rewrite FloatAxioms.leb_spec. unfold SFleb. intros H.
  split; apply not_true_is_false; rewrite is_nan_spec; intros Hn; rewrite Hn in H;
    simpl in H; try discriminate.
  destruct (Prim2SF a); simpl in H; discriminate.
Qed.

Lemma clamp_range (x lo hi : float) :
  (lo <=? hi) = true ->
  is_nan (Math_min (Math_max x lo) hi) = true
  \/ in_range lo hi (Math_min (Math_max x lo) hi).
Proof.
  intros Hlohi.
  destruct (leb_not_nan _ _ Hlohi) as [Hlo Hhi].
  assert (Hlolo : (lo <=? lo) = true).
  { apply ltb_false_leb; try assumption.
    rewrite FloatAxioms.ltb_spec. unfold SFltb.
    pose proof (SFcompare_antisym (Prim2SF lo) (Prim2SF lo)) as H.
    destruct (SFcompare (Prim2SF lo) (Prim2SF lo)) as [[]|]; simpl in H; congruence. }
  assert (Hhihi : (hi <=? hi) = true).
  { apply ltb_false_leb; try assumption.
    rewrite FloatAxioms.ltb_spec. unfold SFltb.
    pose proof (SFcompare_antisym (Prim2SF hi) (Prim2SF hi)) as H.
    destruct (SFcompare (Prim2SF hi) (Prim2SF hi)) as [[]|]; simpl in H; congruence. }
  assert (Hmax : is_nan (Math_max x lo) = true
                 \/ (is_nan (Math_max x lo) = false /\ (lo <=? Math_max x lo) = true)).
  { unfold Math_max. rewrite Hlo, orb_false_r.
    destruct (is_nan x) eqn:Hx; [left; reflexivity|]. right.
    destruct (lo <? x) eqn:H1; [split; [assumption | apply ltb_leb; assumption]|].
    destruct (x <? lo) eqn:H2; [split; assumption|].
    destruct (is_pos_zero x); [|split; assumption].
    split; [assumption|]. apply ltb_false_leb; assumption. }
  destruct Hmax as [Hnan|[Hnn Hge]].
  { left. unfold Math_min. rewrite Hnan. reflexivity. }
  right. unfold Math_min. rewrite Hnn, Hhi. simpl.
  set (r := Math_max x lo) in *.
  destruct (r <? hi) eqn:H1; [split; [assumption | apply ltb_leb; assumption]|].
  destruct (hi <? r) eqn:H2; [split; assumption|].
  destruct (is_neg_zero r); [|split; assumption].
  split; [assumption|]. apply ltb_false_leb; assumption.
Qed.


Lemma digits2_pos_bounds (m : positive) :
  (2 ^ (Z.pos (digits2_pos m) - 1) <= Z.pos m < 2 ^ Z.pos (digits2_pos m))%Z.
Proof.
  induction m as [m IH|m IH|]; simpl digits2_pos.
  - rewrite Pos2Z.inj_succ.
    replace (Z.succ (Z.pos (digits2_pos m)) - 1)%Z with (Z.succ (Z.pos (digits2_pos m) - 1))%Z by lia.
    rewrite (Z.pow_succ_r 2 (Z.pos (digits2_pos m) - 1)) by lia.
    rewrite (Z.pow_succ_r 2 (Z.pos (digits2_pos m))) by lia. lia.
  - rewrite Pos2Z.inj_succ.
    replace (Z.succ (Z.pos (digits2_pos m)) - 1)%Z with (Z.succ (Z.pos (digits2_pos m) - 1))%Z by lia.
    rewrite (Z.pow_succ_r 2 (Z.pos (digits2_pos m) - 1)) by lia.
    rewrite (Z.pow_succ_r 2 (Z.pos (digits2_pos m))) by lia. lia.
  - simpl. lia.
Qed.

Lemma of_Z_range (n : Z) :
  (10 <= n <= 90)%Z -> in_range 10 90 (of_Z n).
Proof.
  intros Hn.
  assert (Hall : forallb (fun k => (10 <=? of_Z k) && (of_Z k <=? 90)) (seqZ 10 81) = true)
    by (vm_compute; reflexivity).
  rewrite forallb_forall in Hall.
  assert (Hin : In n (seqZ 10 81)).
  { apply list_elem_of_In, elem_of_seqZ. lia. }
  apply Hall in Hin. apply andb_prop in Hin. exact Hin.
Qed.

(** A finite positive float lies above / below another as their exponents
    and mantissas do. *)
Lemma SFleb_finite_l (ma : positive) (ea : Z) (f : spec_float) :
  SFleb (S754_finite false ma ea) f = true ->
  f = S754_infinity false
  \/ exists m e, f = S754_finite false m e
       /\ (ea <= e)%Z /\ (e = ea -> (Z.pos ma <= Z.pos m)%Z).
Proof.
  unfold SFleb, SFcompare.
  destruct f as [s|s| |s m e]; try discriminate.
  - destruct s; [discriminate|]. left. reflexivity.
  - destruct s; [discriminate|]. intros H. right. exists m, e.
    split; [reflexivity|].
    destruct (Z.compare_spec ea e) as [He|He|He]; try discriminate.
    + subst e. split; [apply Z.le_refl|]. intros _.
      rewrite Pos.compare_cont_spec in H. unfold Pos.switch_Eq in H.
      destruct (Pos.compare_spec ma m) as [Hm|Hm|Hm]; try discriminate.
      * rewrite Hm. apply Z.le_refl.
      * apply Z.lt_le_incl, Pos2Z.pos_lt_pos. exact Hm.
    + split; [apply Z.lt_le_incl; exact He|]. intros ->. 
      exfalso. exact (Z.lt_irrefl _ He).
Qed.

Lemma SFleb_finite_r (mb : positive) (eb : Z) (m : positive) (e : Z) :
  SFleb (S754_finite false m e) (S754_finite false mb eb) = true ->
  (e <= eb)%Z /\ (e = eb -> (Z.pos m <= Z.pos mb)%Z).
Proof.
  unfold SFleb, SFcompare. intros H.
  destruct (Z.compare_spec e eb) as [He|He|He]; try discriminate.
  - subst e. split; [apply Z.le_refl|]. intros _.
    rewrite Pos.compare_cont_spec in H. unfold Pos.switch_Eq in H.
    destruct (Pos.compare_spec m mb) as [Hm|Hm|Hm]; try discriminate.
    + rewrite Hm. apply Z.le_refl.
    + apply Z.lt_le_incl, Pos2Z.pos_lt_pos. exact Hm.
  - split; [apply Z.lt_le_incl; exact He|]. intros ->.
    exfalso. exact (Z.lt_irrefl _ He).
Qed.

(** A valid binary64 mantissa above the subnormal range has 53 bits. *)
Lemma valid_normal_mantissa (s : bool) (m : positive) (e : Z) :
  valid_binary (S754_finite s m e) = true ->
  (-1074 < e)%Z ->
  (4503599627370496 <= Z.pos m < 9007199254740992)%Z.
Proof.
  unfold valid_binary, bounded, canonical_mantissa, fexp, emin.
  intros Hvalid He.
  apply andb_prop in Hvalid as [Hcanon _]. apply Z.eqb_eq in Hcanon.
  assert (Hdigits : Z.pos (digits2_pos m) = 53%Z).
  { revert Hcanon. unfold prec, emax. clear - He. intros Hcanon. lia. }
  pose proof (digits2_pos_bounds m) as Hm. rewrite Hdigits in Hm.
  assert (P52 : (2 ^ (53 - 1) = 4503599627370496)%Z) by (vm_compute; reflexivity).
  assert (P53 : (2 ^ 53 = 9007199254740992)%Z) by (vm_compute; reflexivity).
  rewrite P52, P53 in Hm. exact Hm.
Qed.

(** [floor(m * 2^e + 1/2)] for a 53-bit mantissa and the exponents of the
    numbers between 10 and 90. *)
Lemma round_half_up_bounds (m e : Z) :
  (4503599627370496 <= m < 9007199254740992)%Z ->
  (-49 <= e <= -46)%Z ->
  (e = -49 -> 5629499534213120 <= m)%Z ->
  (e = -46 -> m <= 6333186975989760)%Z ->
  (10 <= (2 * m + 2 ^ (- e)) / 2 ^ (1 - e) <= 90)%Z.
Proof.
  intros Hm He Hlo Hhi.
  assert (Hcases : e = (-49)%Z \/ e = (-48)%Z \/ e = (-47)%Z \/ e = (-46)%Z) by lia.
  clear He.
  destruct Hcases as [He|[He|[He|He]]]; subst e.
  - specialize (Hlo eq_refl). clear Hhi.
    replace (2 ^ (- -49))%Z with 562949953421312%Z by (vm_compute; reflexivity).
    replace (2 ^ (1 - -49))%Z with 1125899906842624%Z by (vm_compute; reflexivity).
    split; [apply Z.div_le_lower_bound; lia|].
    apply Z.lt_succ_r, Z.div_lt_upper_bound; lia.
  - clear Hlo Hhi.
    replace (2 ^ (- -48))%Z with 281474976710656%Z by (vm_compute; reflexivity).
    replace (2 ^ (1 - -48))%Z with 562949953421312%Z by (vm_compute; reflexivity).
    split; [apply Z.div_le_lower_bound; lia|].
    apply Z.lt_succ_r, Z.div_lt_upper_bound; lia.
  - clear Hlo Hhi.
    replace (2 ^ (- -47))%Z with 140737488355328%Z by (vm_compute; reflexivity).
    replace (2 ^ (1 - -47))%Z with 281474976710656%Z by (vm_compute; reflexivity).
    split; [apply Z.div_le_lower_bound; lia|].
    apply Z.lt_succ_r, Z.div_lt_upper_bound; lia.
  - specialize (Hhi eq_refl). clear Hlo.
    replace (2 ^ (- -46))%Z with 70368744177664%Z by (vm_compute; reflexivity).
    replace (2 ^ (1 - -46))%Z with 140737488355328%Z by (vm_compute; reflexivity).
    split; [apply Z.div_le_lower_bound; lia|].
    apply Z.lt_succ_r, Z.div_lt_upper_bound; lia.
Qed.

Lemma Math_round_range (c : float) :
  in_range 10 90 c -> in_range 10 90 (Math_round c).
Proof.
  intros [Hlo Hhi].
  pose proof (Prim2SF_valid c) as Hvalid.
  rewrite FloatAxioms.leb_spec in Hlo, Hhi.
  assert (H10 : Prim2SF 10 = S754_finite false 5629499534213120 (-49))
    by (vm_compute; reflexivity).
  assert (H90 : Prim2SF 90 = S754_finite false 6333186975989760 (-46))
    by (vm_compute; reflexivity).
  rewrite H10 in Hlo. rewrite H90 in Hhi. clear H10 H90.
  unfold Math_round.
  destruct (SFleb_finite_l _ _ _ Hlo) as [Hinf|(m & e & Hc & He & Hm10)].
  { rewrite Hinf in Hhi. discriminate. }
  rewrite Hc in Hhi, Hvalid |- *.
  destruct (SFleb_finite_r _ _ _ _ Hhi) as [He' Hm90].
  pose proof (valid_normal_mantissa _ _ _ Hvalid ltac:(lia)) as Hm.
  pose proof (round_half_up_bounds (Z.pos m) e Hm (conj He He') Hm10 Hm90) as Hn.
  cbv zeta.
  destruct (Z.leb_spec 0 e) as [|_]; [lia|].
  set (n := ((2 * Z.pos m + 2 ^ (- e)) / 2 ^ (1 - e))%Z) in *.
  clearbody n. clear - Hn.
  destruct (Z.eqb_spec n 0) as [Hz|_]; [rewrite Hz in Hn; lia|].
  apply of_Z_range. exact Hn.
Qed.

(** [Math.min(a, hi)] never exceeds [hi]. *)
Lemma Math_min_upper (a hi : float) :
  is_nan hi = false ->
  is_nan (Math_min a hi) = true \/ (Math_min a hi <=? hi) = true.
Proof.
  intros Hhi. unfold Math_min. rewrite Hhi, orb_false_r.
  destruct (is_nan a) eqn:Ha; [left; reflexivity|]. right.
  assert (Hrefl : (hi <=? hi) = true).
  { apply ltb_false_leb; try assumption.
    rewrite FloatAxioms.ltb_spec. unfold SFltb.
    pose proof (SFcompare_antisym (Prim2SF hi) (Prim2SF hi)) as H.
    destruct (SFcompare (Prim2SF hi) (Prim2SF hi)) as [[]|]; simpl in H; congruence. }
  destruct (a <? hi) eqn:H1; [apply ltb_leb; assumption|].
  destruct (hi <? a) eqn:H2; [assumption|].
  destruct (is_neg_zero a); [|assumption].
  apply ltb_false_leb; assumption.
Qed.

(** A NaN argument makes [Math.max] and [Math.min] NaN. *)
Lemma clamp_nan (x lo hi : float) :
  is_nan x = true -> Math_min (Math_max x lo) hi = nan.
Proof.
  intros Hx. unfold Math_max. rewrite Hx. reflexivity.
Qed.

Lemma clamp_number (x lo hi : float) :
  (lo <=? hi) = true -> is_nan x = false ->
  in_range lo hi (Math_min (Math_max x lo) hi).
Proof.
  intros Hlohi Hx.
  destruct (leb_not_nan _ _ Hlohi) as [Hlo Hhi].
  assert (Hmax : is_nan (Math_max x lo) = false /\ (lo <=? Math_max x lo) = true).
  { unfold Math_max. rewrite Hx, Hlo. simpl.
    assert (Hlolo : (lo <=? lo) = true).
    { apply ltb_false_leb; try assumption.
      rewrite FloatAxioms.ltb_spec. unfold SFltb.
      pose proof (SFcompare_antisym (Prim2SF lo) (Prim2SF lo)) as H.
      destruct (SFcompare (Prim2SF lo) (Prim2SF lo)) as [[]|]; simpl in H; congruence. }
    destruct (lo <? x) eqn:H1; [split; [assumption | apply ltb_leb; assumption]|].
    destruct (x <? lo) eqn:H2; [split; assumption|].
    destruct (is_pos_zero x); [|split; assumption].
    split; [assumption|]. apply ltb_false_leb; assumption. }
  destruct Hmax as [Hnn Hge].
  destruct (clamp_range x lo hi Hlohi) as [Hnan|Hin]; [|exact Hin].
  exfalso. revert Hnan. unfold Math_min. rewrite Hnn, Hhi. simpl.
  set (r := Math_max x lo) in *.
  destruct (r <? hi); [congruence|].
  destruct (hi <? r); [congruence|].
  destruct (is_neg_zero r); congruence.
Qed.

(** [<=] is transitive above a positive finite number. *)
Lemma SFleb_finite_trans (m1 : positive) (e1 : Z) (m2 : positive) (e2 : Z)
    (f : spec_float) :
  SFleb (S754_finite false m1 e1) (S754_finite false m2 e2) = true ->
  SFleb (S754_finite false m2 e2) f = true ->
  SFleb (S754_finite false m1 e1) f = true.
Proof.
  intros H12 H2f.
  apply SFleb_finite_r in H12 as [He12 Hm12].
  apply SFleb_finite_l in H2f as [->|(m & e & -> & He2 & Hm2)]; [reflexivity|].
  unfold SFleb, SFcompare.
  destruct (Z.compare_spec e1 e) as [He|He|He]; [|reflexivity|lia].
  subst e. assert (e1 = e2) as He by lia.
  specialize (Hm12 He). specialize (Hm2 He).
  rewrite Pos.compare_cont_spec. unfold Pos.switch_Eq.
  destruct (Pos.compare_spec m1 m) as [Hm|Hm|Hm]; try reflexivity.
  exfalso. apply Pos2Z.pos_lt_pos in Hm. lia.
Qed.

(** A number that reaches a positive bound reaches every smaller one. *)
Lemma ge_weaken (x hi lo : float) :
  (exists m e, Prim2SF lo = S754_finite false m e) ->
  (exists m e, Prim2SF hi = S754_finite false m e) ->
  (lo <=? hi) = true -> ge x hi = true -> ge x lo = true.
Proof.
  intros (m1 & e1 & Hlo) (m2 & e2 & Hhi). unfold ge.
  rewrite !FloatAxioms.leb_spec, Hlo, Hhi. apply SFleb_finite_trans.
Qed.

End NumberOrder.

(** * Ranges of the scores *)

Section ScoreRanges.

Import JS Analytics.
Open Scope float_scope.

(** X1: for bounds [min <= max], [clamp] of a number lies within the bounds,
    and [clamp] of NaN is NaN: the clamp stops everything but NaN. *)
Theorem clamp_within (value min max : float) :
  (min <=? max) = true ->
  (is_nan value = false -> in_range min max (clamp value min max))
  /\ (is_nan value = true -> clamp value min max = nan).
Proof.
  intros Hbounds. unfold clamp. split.
  - apply clamp_number. exact Hbounds.
  - apply clamp_nan.
Qed.

Lemma clamp_within_witness :
  (is_nan 137.5 = false -> in_range 0 100 (clamp 137.5 0 100))
  /\ (is_nan 137.5 = true -> clamp 137.5 0 100 = nan).
Proof. apply (clamp_within 137.5 0 100). reflexivity. Defined.

(** X2: a consistency score is NaN or lies between 0 and 100. *)
Theorem calculateConsistencyScore_range (values : list float) :
  is_nan (calculateConsistencyScore values) = true
  \/ in_range 0 100 (calculateConsistencyScore values).
Proof.
  unfold calculateConsistencyScore.
  destruct (length values <? 2)%nat; [right; split; reflexivity|].
  destruct (strict_eq (calculateMean values) 0); [right; split; reflexivity|].
  unfold clamp. apply clamp_range. reflexivity.
Qed.

(** X3: whatever the roster and the opponent, the win probability that
    [simulateMatch] reports is NaN or an amount between 10 and 90: the
    clamp and the final [Math.round] let nothing else through. *)
Theorem simulateMatch_win_probability_range (this : AnalyticsEngine)
    (opponentStrength : float) :
  is_nan (winProbability (simulateMatch this opponentStrength)) = true
  \/ in_range 10 90 (winProbability (simulateMatch this opponentStrength)).
Proof.
  unfold simulateMatch. cbv zeta. unfold winProbability.
  set (x := 50 + (teamStrength (analyzeTeam this) - opponentStrength) * 0.5).
  destruct (clamp_range x 10 90 eq_refl) as [Hnan|Hin].
  - left. apply is_nan_spec in Hnan. unfold Math_round. rewrite Hnan.
    apply is_nan_spec. exact Hnan.
  - right. apply Math_round_range. exact Hin.
Qed.

(** X4: the form index is NaN or lies between 0 and 100. *)
Theorem calculateFormIndex_range (player : Player) :
  is_nan (calculateFormIndex player) = true
  \/ in_range 0 100 (calculateFormIndex player).
Proof.
  unfold calculateFormIndex. cbv zeta.
  destruct (length (slice_from (runsPerMatch player) (-5)) =? 0)%nat;
    [right; split; reflexivity|].
  apply clamp_range. reflexivity.
Qed.

(** X5: the balance score of a roster lies between 35 and 100, so the final
    [Math.max(score, 0)] never has to lift it. *)
Theorem calculateTeamBalance_range (this : AnalyticsEngine) :
  in_range 35 100 (calculateTeamBalance this).
Proof.
  unfold calculateTeamBalance. cbv zeta.
  repeat match goal with
         | |- context [if ?b then _ else _] => destruct b
         end; split; vm_compute; reflexivity.
Qed.

(** X6: the ratings that end in [Math.min(..., 100)] are NaN or at most
    100. *)
Theorem ratings_capped (this : AnalyticsEngine) (player : Player) :
  (is_nan (calculateBattingRating player) = true
   \/ (calculateBattingRating player <=? 100) = true)
  /\ (is_nan (calculateBowlingRating player) = true
      \/ (calculateBowlingRating player <=? 100) = true)
  /\ (is_nan (calculateImpactScore player) = true
      \/ (calculateImpactScore player <=? 100) = true)
  /\ (is_nan (calculatePotential player) = true
      \/ (calculatePotential player <=? 100) = true)
  /\ (is_nan (calculateFieldingEfficiency this) = true
      \/ (calculateFieldingEfficiency this <=? 100) = true).
Proof.
  split; [apply Math_min_upper; reflexivity|].
  split.
  { unfold calculateBowlingRating.
    destruct (strict_eq (wickets player) 0); [right; reflexivity|].
    apply Math_min_upper; reflexivity. }
  split; [apply Math_min_upper; reflexivity|].
  split; apply Math_min_upper; reflexivity.
Qed.

End ScoreRanges.

(** * Rankings, moving averages and streaks *)

Section RankingFacts.

Import JS Analytics.
Open Scope float_scope.

(** ** Sorting only rearranges *)

Lemma insert_by_perm {A} (cmp : A -> A -> float) (x : A) (l : list A) :
  insert_by cmp x l ≡ₚ x :: l.
Proof.
  induction l as [|y l IH]; simpl; [reflexivity|].
  destruct (cmp y x <? 0); [|reflexivity].
  rewrite IH. apply Permutation_swap.
Qed.

Lemma sort_by_perm {A} (cmp : A -> A -> float) (l : list A) :
  sort_by cmp l ≡ₚ l.
Proof.
  induction l as [|x l IH]; simpl; [reflexivity|].
  unfold sort_by in *. simpl. rewrite insert_by_perm, IH. reflexivity.
Qed.

(** A comparator that never answers below zero leaves the order alone. *)
Lemma sort_by_ties {A} (cmp : A -> A -> float) (l : list A) :
  (forall a b, (cmp a b <? 0) = false) -> sort_by cmp l = l.
Proof.
  intros Hties. induction l as [|x l IH]; [reflexivity|].
  unfold sort_by in *. simpl. rewrite IH.
  destruct l as [|y l]; simpl; [reflexivity|]. rewrite Hties. reflexivity.
Qed.

Lemma slice_prefix {A} (l : list A) (n : Z) :
  slice l 0 n = take (rel_index (length l) n) l.
Proof.
  unfold slice. replace (rel_index (length l) 0) with 0%nat
    by (unfold rel_index; simpl; lia).
  rewrite drop_0, Nat.sub_0_r. reflexivity.
Qed.

Lemma rel_index_nonneg (len : nat) (n : Z) :
  (0 <= n)%Z -> rel_index len n = Nat.min (Z.to_nat n) len.
Proof.
  intros Hn. unfold rel_index.
  destruct (Z.ltb_spec n 0); [lia | reflexivity].
Qed.

(** The first [n] of a scored, sorted list: a selection of the items. *)
Lemma top_scored {T} (items : list T) (n : Z) (score : T -> float) :
  map fst (slice (sort_by (fun a b => snd b - snd a)
                    (map (fun item => (item, score item)) items)) 0 n) ⊆+ items
  /\ length (map fst (slice (sort_by (fun a b => snd b - snd a)
                       (map (fun item => (item, score item)) items)) 0 n))
     = rel_index (length items) n.
Proof.
  set (sorted := sort_by (fun a b : T * float => snd b - snd a)
                   (map (fun item => (item, score item)) items)).
  assert (Hperm : map fst sorted ≡ₚ items).
  { subst sorted. rewrite sort_by_perm, map_map. simpl. rewrite map_id. reflexivity. }
  assert (Hlen : length sorted = length items).
  { rewrite <- (length_map fst sorted). apply Permutation_length. exact Hperm. }
  rewrite slice_prefix, Hlen. split.
  - transitivity (map fst sorted); [|apply Permutation_submseteq; exact Hperm].
    apply sublist_submseteq. rewrite <- firstn_map. apply sublist_take.
  - rewrite length_map, length_take, Hlen.
    unfold rel_index. destruct (Z.ltb_spec n 0); lia.
Qed.

(** X7: [getTopN] returns a selection of the items (each item at most as often
    as it occurs), and exactly [min n (items.length)] of them for [n >= 0]. *)
Theorem getTopN_selection {T} (items : list T) (n : Z) (scorer : T -> float) :
  getTopN items n scorer ⊆+ items
  /\ ((0 <= n)%Z ->
      length (getTopN items n scorer) = Nat.min (Z.to_nat n) (length items)).
Proof.
  unfold getTopN. destruct (top_scored items n scorer) as [Hsub Hlen].
  split; [exact Hsub|].
  intros Hn. rewrite Hlen. apply rel_index_nonneg. exact Hn.
Qed.

(** X8: the key players of a match prediction are players of the roster, three
    of them or the whole roster if it is smaller. *)
Theorem identifyKeyPlayers_selection (this : AnalyticsEngine) :
  identifyKeyPlayers this ⊆+ players this
  /\ length (identifyKeyPlayers this) = Nat.min 3 (length (players this))
  /\ keyPlayers (simulateMatch this default_opponentStrength) = identifyKeyPlayers this.
Proof.
  unfold identifyKeyPlayers. cbv zeta.
  destruct (top_scored (players this) 3
              (fun p => overallRating (calculatePerformanceMetrics p))) as [Hsub Hlen].
  split; [exact Hsub|]. split; [|reflexivity].
  rewrite Hlen. apply rel_index_nonneg. lia.
Qed.

(** X9: [getTopPerformers] returns a selection of the roster, of
    [min count (roster size)] players for [count >= 0]. *)
Theorem getTopPerformers_selection (this : AnalyticsEngine) (category : Category)
    (count : Z) :
  getTopPerformers this category count ⊆+ players this
  /\ ((0 <= count)%Z ->
      length (getTopPerformers this category count)
      = Nat.min (Z.to_nat count) (length (players this))).
Proof.
  unfold getTopPerformers. cbv zeta.
  destruct (top_scored (players this) count
              (fun p =>
                 match category with
                 | batting => battingRating (calculatePerformanceMetrics p)
                 | bowling => bowlingRating (calculatePerformanceMetrics p)
                 | fielding => pm_fieldingRating (calculatePerformanceMetrics p)
                 | overall => overallRating (calculatePerformanceMetrics p)
                 end)) as [Hsub Hlen].
  split; [exact Hsub|].
  intros Hn. rewrite Hlen. apply rel_index_nonneg. exact Hn.
Qed.

(** X10: [rankPlayers] returns the same players in some order, and under a key
    that does not hold a number (id, name, role, the per-match arrays) in the
    order given. *)
Theorem rankPlayers_permutation (players : list Player) (key : PlayerKey)
    (ascending : bool) :
  rankPlayers players key ascending ≡ₚ players
  /\ ((forall p, number_at key p = None) ->
      rankPlayers players key ascending = players).
Proof.
  unfold rankPlayers. split; [apply sort_by_perm|].
  intros Hkey. apply sort_by_ties. intros a b. rewrite (Hkey a). reflexivity.
Qed.

End RankingFacts.

Section SeriesFacts.

Import JS Analytics Samples.
Open Scope float_scope.

(** ** The simple moving average *)

Lemma moving_loop_length (values : list float) (window : Z) (n : nat) (i : Z)
    (result : list float) :
  length (moving_loop values window n i result) = (length result + n)%nat.
Proof.
  revert i result; induction n as [|n IH]; intros i result; simpl.
  - lia.
  - rewrite IH, length_app. simpl. lia.
Qed.

Lemma moving_loop_prefix (values : list float) (window : Z) (n : nat) (i : Z)
    (result : list float) (j : nat) :
  (j < length result)%nat ->
  moving_loop values window n i result !! j = result !! j.
Proof.
  revert i result; induction n as [|n IH]; intros i result Hj; simpl.
  - reflexivity.
  - rewrite IH by (rewrite length_app; simpl; lia).
    apply lookup_app_l. exact Hj.
Qed.

(** The element the loop writes at index [length result + k] is the mean of
    the window that [slice] cuts at loop index [i + k]. *)
Lemma moving_loop_lookup (values : list float) (window : Z) (n : nat) (i : Z)
    (result : list float) (k : nat) :
  (k < n)%nat ->
  moving_loop values window n i result !! (length result + k)%nat
  = Some (calculateMean
            (slice values (i + Z.of_nat k - window + 1) (i + Z.of_nat k + 1))).
Proof.
  revert i result k; induction n as [|n IH]; intros i result k Hk; [lia|].
  simpl. destruct k as [|k].
  - rewrite moving_loop_prefix by (rewrite length_app; simpl; lia).
    rewrite Nat.add_0_r, lookup_app_r by lia.
    rewrite Nat.sub_diag. simpl. do 3 f_equal; lia.
  - specialize (IH (i + 1)%Z
                   (result ++ [calculateMean (slice values (i - window + 1) (i + 1))])
                   k ltac:(lia)).
    rewrite length_app in IH. simpl in IH.
    replace (length result + S k)%nat with (length result + 1 + k)%nat by lia.
    rewrite IH. do 3 f_equal; lia.
Qed.

Lemma slice_window {A} (l : list A) (j w : nat) :
  (j + w <= length l)%nat ->
  slice l (Z.of_nat j) (Z.of_nat j + Z.of_nat w) = take w (drop j l).
Proof.
  intros Hjw. unfold slice, rel_index.
  destruct (Z.ltb_spec (Z.of_nat j) 0); [lia|].
  destruct (Z.ltb_spec (Z.of_nat j + Z.of_nat w) 0); [lia|].
  f_equal; [|f_equal]; lia.
Qed.

(** X11: for a window of [w] values, [1 <= w <= values.length], the moving
    average has [values.length - w + 1] elements and its element [j] is the
    mean of the [w] values from index [j] on. *)
Theorem calculateMovingAverage_windows (values : list float) (w : nat) :
  (1 <= w <= length values)%nat ->
  length (calculateMovingAverage values (Z.of_nat w)) = (length values - w + 1)%nat
  /\ forall j : nat,
       (j + w <= length values)%nat ->
       calculateMovingAverage values (Z.of_nat w) !! j
       = Some (calculateMean (take w (drop j values))).
Proof.
  intros Hw. unfold calculateMovingAverage.
  destruct (Z.ltb_spec (Z.of_nat (length values)) (Z.of_nat w)); [lia|].
  split.
  - rewrite moving_loop_length. simpl. lia.
  - intros j Hj.
    pose proof (moving_loop_lookup values (Z.of_nat w)
                  (Z.to_nat (Z.of_nat (length values) - (Z.of_nat w - 1)))
                  (Z.of_nat w - 1) [] j ltac:(lia)) as Hlookup.
    simpl in Hlookup. rewrite Hlookup.
    replace (Z.of_nat w - 1 + Z.of_nat j - Z.of_nat w + 1)%Z with (Z.of_nat j) by lia.
    replace (Z.of_nat w - 1 + Z.of_nat j + 1)%Z with (Z.of_nat j + Z.of_nat w)%Z by lia.
    rewrite slice_window by lia. reflexivity.
Qed.

Lemma calculateMovingAverage_windows_witness :
  length (calculateMovingAverage recent_scores (Z.of_nat 3))
  = (length recent_scores - 3 + 1)%nat
  /\ forall j : nat,
       (j + 3 <= length recent_scores)%nat ->
       calculateMovingAverage recent_scores (Z.of_nat 3) !! j
       = Some (calculateMean (take 3 (drop j recent_scores))).
Proof.
  apply (calculateMovingAverage_windows recent_scores 3). simpl. lia.
Defined.

(** A list shorter than the window comes back unchanged. *)
Lemma calculateMovingAverage_short (values : list float) (window : Z) :
  (Z.of_nat (length values) < window)%Z ->
  calculateMovingAverage values window = values.
Proof.
  intros H. unfold calculateMovingAverage.
  destruct (Z.ltb_spec (Z.of_nat (length values)) window); [reflexivity | lia].
Qed.

(** ** Streaks *)

(** Once a streak has begun, the loop counts the runs that continue it and
    stops at the first that does not. *)
Lemma streak_loop_counts (rest : list float) (type : StreakType) (count : nat) :
  (1 <= count)%nat ->
  exists k : nat,
    streak_loop rest type count = (type, (count + k)%nat)
    /\ (k <= length rest)%nat
    /\ Forall (fun r => streak_holds type r = true) (take k rest)
    /\ (forall r, rest !! k = Some r -> streak_holds type r = false).
Proof.
  revert count; induction rest as [|r rest IH]; intros count Hcount.
  - exists 0%nat. simpl. rewrite Nat.add_0_r.
    split; [reflexivity|]. split; [lia|]. split; [constructor|]. intros r [=].
  - simpl. destruct (Nat.eqb_spec count 0) as [|_]; [lia|].
    destruct type; simpl.
    + destruct (ge r 30) eqn:Hr.
      * destruct (IH (S count) ltac:(lia)) as (k & Hk & Hlen & Hall & Hstop).
        exists (S k). rewrite Hk.
        split; [f_equal; lia|]. split; [simpl; lia|].
        split; [simpl; constructor; assumption|]. exact Hstop.
      * exists 0%nat. rewrite Nat.add_0_r.
        split; [reflexivity|]. split; [lia|]. split; [constructor|].
        intros r' [= <-]. exact Hr.
    + destruct (lt r 15) eqn:Hr.
      * destruct (IH (S count) ltac:(lia)) as (k & Hk & Hlen & Hall & Hstop).
        exists (S k). rewrite Hk.
        split; [f_equal; lia|]. split; [simpl; lia|].
        split; [simpl; constructor; assumption|]. exact Hstop.
      * exists 0%nat. rewrite Nat.add_0_r.
        split; [reflexivity|]. split; [lia|]. split; [constructor|].
        intros r' [= <-]. exact Hr.
    + exists 0%nat. rewrite Nat.add_0_r.
      split; [reflexivity|]. split; [lia|]. split; [constructor|].
      intros r' _. reflexivity.
Qed.

(** X12: the streak reported for a non-empty series is real.  It counts at
    least one and at most all of the matches; a positive (negative) streak of
    [count] means that each of the [count] most recent scores is at least 30
    (below 15) and that the score before them, if there is one, is not; a
    neutral streak has length 1 and a last score of neither kind. *)
Theorem calculateStreak_sound (runs : list float) :
  runs <> [] ->
  (1 <= (calculateStreak runs).2 <= length runs)%nat
  /\ ((calculateStreak runs).1 = neutral ->
      (calculateStreak runs).2 = 1%nat
      /\ exists r, last runs = Some r /\ ge r 30 = false /\ lt r 15 = false)
  /\ ((calculateStreak runs).1 <> neutral ->
      Forall (fun r => streak_holds (calculateStreak runs).1 r = true)
        (take (calculateStreak runs).2 (rev runs))
      /\ (forall r, rev runs !! (calculateStreak runs).2 = Some r ->
            streak_holds (calculateStreak runs).1 r = false)).
Proof.
  intros Hne. unfold calculateStreak.
  destruct (Nat.eqb_spec (length runs) 0) as [Hlen|_].
  { destruct runs; [congruence | discriminate]. }
  assert (Hlast : last runs = head (rev runs)).
  { rewrite <- (rev_involutive runs) at 1. generalize (rev runs). intros l.
    destruct l as [|x l]; [reflexivity|]. simpl. rewrite last_snoc. reflexivity. }
  assert (Hlength : length (rev runs) = length runs) by apply length_rev.
  destruct (rev runs) as [|r rest] eqn:Hrev.
  { simpl in Hlength. destruct runs; [congruence | discriminate]. }
  simpl in Hlength. rewrite Hlast. clear Hlast Hrev.
  cbn [streak_loop Nat.eqb].
  set (type := if ge r 30 then positive else if lt r (30 / 2) then negative else neutral).
  destruct (streak_loop_counts rest type 1 ltac:(lia)) as (k & Hk & Hlen & Hall & Hstop).
  rewrite Hk. simpl fst. simpl snd.
  split; [lia|]. split.
  - intros Htype. rewrite Htype in Hall.
    assert (k = 0)%nat as ->.
    { destruct k as [|k]; [reflexivity|]. destruct rest as [|r' rest]; [simpl in Hlen; lia|].
      simpl in Hall. apply Forall_cons in Hall as [Hfalse _]. discriminate. }
    split; [reflexivity|]. exists r. split; [reflexivity|].
    subst type. assert (H15 : 30 / 2 = 15) by reflexivity. rewrite H15 in Htype.
    destruct (ge r 30); [discriminate|]. destruct (lt r 15); [discriminate|].
    split; reflexivity.
  - intros Htype. split.
    + simpl. constructor; [|exact Hall].
      subst type. assert (H15 : 30 / 2 = 15) by reflexivity. rewrite H15 in *.
      destruct (ge r 30) eqn:H30; [exact H30|].
      destruct (lt r 15) eqn:Hlt; [exact Hlt | congruence].
    + simpl. exact Hstop.
Qed.

Lemma calculateStreak_sound_witness :
  (1 <= (calculateStreak recent_scores).2 <= length recent_scores)%nat
  /\ ((calculateStreak recent_scores).1 = neutral ->
      (calculateStreak recent_scores).2 = 1%nat
      /\ exists r, last recent_scores = Some r /\ ge r 30 = false /\ lt r 15 = false)
  /\ ((calculateStreak recent_scores).1 <> neutral ->
      Forall (fun r => streak_holds (calculateStreak recent_scores).1 r = true)
        (take (calculateStreak recent_scores).2 (rev recent_scores))
      /\ (forall r, rev recent_scores !! (calculateStreak recent_scores).2 = Some r ->
            streak_holds (calculateStreak recent_scores).1 r = false)).
Proof. apply (calculateStreak_sound recent_scores). discriminate. Defined.

End SeriesFacts.

Section FormFacts.

Import JS StatsUtils Analytics.
Open Scope float_scope.

(** The five labels of [analyzeForm] against the thresholds of the two
    lists: "Excellent" and "Good" start at 60, "Poor" and "Critical" are what
    does not reach 40. *)
Lemma currentForm_thresholds (p : Player) :
  (in_form p <-> ge (calculateFormIndex p) 60 = true)
  /\ (out_of_form p <-> ge (calculateFormIndex p) 40 = false).
Proof.
  unfold in_form, out_of_form, analyzeForm. cbv zeta. cbn [currentForm].
  assert (H86 : ge (calculateFormIndex p) 80 = true -> ge (calculateFormIndex p) 60 = true).
  { apply ge_weaken; [eexists _, _; vm_compute; reflexivity ..| reflexivity]. }
  assert (H64 : ge (calculateFormIndex p) 60 = true -> ge (calculateFormIndex p) 40 = true).
  { apply ge_weaken; [eexists _, _; vm_compute; reflexivity ..| reflexivity]. }
  destruct (ge (calculateFormIndex p) 80).
  { rewrite H64 by (apply H86; reflexivity). rewrite H86 by reflexivity.
    split; split; try done. }
  destruct (ge (calculateFormIndex p) 60).
  { rewrite H64 by reflexivity. split; split; done. }
  destruct (ge (calculateFormIndex p) 40); [split; split; done|].
  destruct (ge (calculateFormIndex p) 20); split; split; done.
Qed.

(** X26: [getPlayersInForm] lists, in roster order, exactly the players whose
    form index reaches 60, and [getPlayersOutOfForm] exactly those whose form
    index does not reach 40.  A player without a recorded match is in neither
    list; a player whose form index is NaN is listed as out of form. *)
Theorem form_lists (this : AnalyticsEngine) :
  getPlayersInForm this `sublist_of` players this
  /\ getPlayersOutOfForm this `sublist_of` players this
  /\ (forall p, p ∈ getPlayersInForm this
                <-> p ∈ players this /\ ge (calculateFormIndex p) 60 = true)
  /\ (forall p, p ∈ getPlayersOutOfForm this
                <-> p ∈ players this /\ ge (calculateFormIndex p) 40 = false)
  /\ (forall p, runsPerMatch p = [] ->
        (p ∉ getPlayersInForm this) /\ (p ∉ getPlayersOutOfForm this))
  /\ (forall p, p ∈ players this -> is_nan (calculateFormIndex p) = true ->
        p ∈ getPlayersOutOfForm this).
Proof.
  unfold getPlayersInForm, getPlayersOutOfForm.
  split; [apply sublist_filter|]. split; [apply sublist_filter|].
  assert (Hin : forall p, p ∈ filter in_form (players this)
                <-> p ∈ players this /\ ge (calculateFormIndex p) 60 = true).
  { intros p. rewrite list_elem_of_filter.
    destruct (currentForm_thresholds p) as [-> _]. tauto. }
  assert (Hout : forall p, p ∈ filter out_of_form (players this)
                <-> p ∈ players this /\ ge (calculateFormIndex p) 40 = false).
  { intros p. rewrite list_elem_of_filter.
    destruct (currentForm_thresholds p) as [_ ->]. tauto. }
  split; [exact Hin|]. split; [exact Hout|]. split.
  - intros p Hruns. rewrite Hin, Hout.
    assert (Hform : calculateFormIndex p = 50).
    { unfold calculateFormIndex. cbv zeta. rewrite Hruns. reflexivity. }
    rewrite Hform. split; intros [_ H]; vm_compute in H; discriminate.
  - intros p Hp Hnan. apply Hout. split; [exact Hp|].
    unfold ge. apply not_true_is_false. intros Hle.
    apply leb_not_nan in Hle as [_ Hle]. congruence.
Qed.

End FormFacts.

(** * More on the data service *)

Section ValidationFacts.

Import JS DataService.
Open Scope float_scope.

Context {Extra : Type}.
Implicit Types (p : Player Extra).

Lemma leb_ltb_false (a b : float) : (a <=? b) = true -> (b <? a) = false.
Proof.
  rewrite FloatAxioms.ltb_spec, FloatAxioms.leb_spec. unfold SFltb, SFleb.
  rewrite (SFcompare_antisym (Prim2SF a) (Prim2SF b)).
  destruct (SFcompare (Prim2SF a) (Prim2SF b)) as [[]|]; simpl; congruence.
Qed.

Lemma is_nan_ltb (a b : float) :
  is_nan a = true -> (a <? b) = false /\ (b <? a) = false.
Proof.
  intros Ha. apply is_nan_spec in Ha.
  rewrite !FloatAxioms.ltb_spec. unfold SFltb. rewrite Ha. simpl.
  split; [reflexivity|]. destruct (Prim2SF b); reflexivity.
Qed.

Lemma out_of_range_spec (v : jsnum) (lo hi : float) :
  is_nan lo = false -> is_nan hi = false ->
  out_of_range v lo hi = false <-> within_or_nan v lo hi.
Proof.
  intros Hlo Hhi.
  assert (Hnum : forall x,
    lt x lo || gt x hi = false <-> is_nan x = true \/ in_range lo hi x).
  { intros x. unfold lt, gt, in_range. split.
    - intros H. apply orb_false_elim in H as [H1 H2].
      destruct (is_nan x) eqn:Hx; [left; reflexivity|]. right.
      split; apply ltb_false_leb; assumption.
    - intros [Hx|[H1 H2]].
      + destruct (is_nan_ltb x lo Hx) as [-> _].
        destruct (is_nan_ltb x hi Hx) as [_ ->]. reflexivity.
      + rewrite (leb_ltb_false _ _ H1), (leb_ltb_false _ _ H2). reflexivity. }
  destruct v as [| |x]; simpl.
  - split; [constructor | reflexivity].
  - apply Hnum.
  - apply Hnum.
Qed.

(** X13: [validatePlayer] accepts exactly the players whose trimmed name has
    two characters or more, whose role is one of the four, and whose batting
    average, strike rate, bowling economy and fitness score are each missing,
    NaN, or within [0, 100], [0, 300], [0, 20] and [0, 100]. *)
Theorem validatePlayer_accepts p :
  success (validatePlayer p) = true <->
  (exists n, name p = Some n /\ (2 <= String.length (trim n))%nat)
  /\ (exists r, role p = Some r
                /\ r ∈ ["Batsman"; "Bowler"; "All-Rounder"; "Wicket-Keeper"])
  /\ within_or_nan (battingAverage p) 0 100
  /\ within_or_nan (strikeRate p) 0 300
  /\ within_or_nan (bowlingEconomy p) 0 20
  /\ within_or_nan (fitnessScore p) 0 100.
Proof.
  rewrite <- !out_of_range_spec by reflexivity.
  unfold validatePlayer.
  destruct (name p) as [n|]; simpl.
  2:{ split; [discriminate|]. intros [(n & [=] & _) _]. }
  destruct (String.eqb_spec n "") as [->|Hn]; simpl.
  { split; [discriminate|]. intros [(n & [= <-] & Hlen) _]. simpl in Hlen. lia. }
  destruct (Nat.ltb_spec (String.length (trim n)) 2) as [Hshort|Hlong]; simpl.
  { split; [discriminate|]. intros [(n' & [= <-] & Hlen) _]. lia. }
  destruct (role p) as [r|]; simpl.
  2:{ split; [discriminate|]. intros (_ & (r & [=] & _) & _). }
  destruct (String.eqb_spec r "") as [->|Hr]; simpl.
  { split; [discriminate|]. intros (_ & (r & [= <-] & Hin) & _).
    revert Hin. rewrite !elem_of_cons, elem_of_nil.
    intros [?|[?|[?|[?|[]]]]]; discriminate. }
  destruct (bool_decide_reflect
              (r ∈ ["Batsman"; "Bowler"; "All-Rounder"; "Wicket-Keeper"]))
    as [Hrole|Hrole]; simpl.
  2:{ split; [discriminate|]. intros (_ & (r' & [= <-] & Hin) & _). contradiction. }
  destruct (out_of_range (battingAverage p) 0 100); simpl.
  { split; [discriminate|]. intros (_ & _ & [=] & _). }
  destruct (out_of_range (strikeRate p) 0 300); simpl.
  { split; [discriminate|]. intros (_ & _ & _ & [=] & _). }
  destruct (out_of_range (bowlingEconomy p) 0 20); simpl.
  { split; [discriminate|]. intros (_ & _ & _ & _ & [=] & _). }
  destruct (out_of_range (fitnessScore p) 0 100); simpl.
  { split; [discriminate|]. intros (_ & _ & _ & _ & _ & [=]). }
  split; [|reflexivity]. intros _.
  split; [exists n; split; [reflexivity | exact Hlong]|].
  split; [exists r; split; [reflexivity | exact Hrole]|].
  repeat split.
Qed.

(** X14: the two validators agree except on the bowling economy, which only
    [validatePlayer] tests; and [isValidPlayerData] answers [valid] exactly
    when it reports no message. *)
Theorem validators_agree p :
  success (validatePlayer p)
  = (isValidPlayerData p).1 && negb (out_of_range (bowlingEconomy p) 0 20)
  /\ ((isValidPlayerData p).1 = true <-> (isValidPlayerData p).2 = []).
Proof.
  unfold validatePlayer, isValidPlayerData. cbv zeta.
  destruct (negb (truthy (name p))
            || (String.length (trim (default "" (name p))) <? 2)%nat);
  destruct (negb (truthy (role p))
            || negb (bool_decide (default "" (role p)
                       ∈ ["Batsman"; "Bowler"; "All-Rounder"; "Wicket-Keeper"])));
  destruct (out_of_range (battingAverage p) 0 100);
  destruct (out_of_range (strikeRate p) 0 300);
  destruct (out_of_range (bowlingEconomy p) 0 20);
  destruct (out_of_range (fitnessScore p) 0 100);
  simpl; (split; [reflexivity | split; [try discriminate; reflexivity | try discriminate; reflexivity]]).
Qed.

End ValidationFacts.

Section HistoryFacts.

Import JS DataService.
Open Scope float_scope.

Context {Extra : Type}.
Context (clock : nat -> Z) (random : nat -> string).
Implicit Types (w : World Extra).

Lemma slice_from_neg_spec {A} (l : list A) (k : positive) :
  slice_from l (Z.neg k) = drop (length l - Pos.to_nat k) l.
Proof.
  unfold slice_from, rel_index. simpl. f_equal. lia.
Qed.

Lemma getHistory_reads (limit : option Z) w :
  (getHistory (Extra := Extra) limit w).2 = w.
Proof.
  unfold getHistory. rewrite bind_eq. unfold gets, ret. simpl.
  destruct (ls_history w) as [[| |h]|]; reflexivity.
Qed.

(** X15: with a positive [limit], [getHistory] answers with the last [limit]
    entries of the stored history (all of them if there are fewer) and changes
    nothing. *)
Theorem getHistory_last_entries (limit : positive) (stored : list HistoryEntry) w :
  ls_history w = Some (text stored) ->
  exists h : list HistoryEntry,
    getHistory (Some (Z.pos limit)) w = (ok h, w)
    /\ h `suffix_of` stored
    /\ length h = Nat.min (Pos.to_nat limit) (length stored).
Proof.
  intros Hstored. unfold getHistory. rewrite bind_eq. unfold gets, ret. simpl.
  rewrite Hstored. simpl.
  exists (slice_from stored (Z.neg limit)). split; [reflexivity|].
  rewrite slice_from_neg_spec. split; [apply suffix_drop|].
  rewrite length_drop. lia.
Qed.

(** X16: [addHistoryEntry] appends one entry that records the action, the
    player and the time, behind at most the 99 most recent entries of the
    history it finds: the stored history never grows beyond 100 entries. *)
Theorem addHistoryEntry_bounded (a : Action) (pid pname : option string)
    (d : string) w :
  exists (older : list HistoryEntry) (entry : HistoryEntry),
    ls_history (addHistoryEntry clock random a pid pname d w).2
    = Some (text (older ++ [entry]))
    /\ (length (older ++ [entry]) <= 100)%nat
    /\ older `suffix_of` default [] (data (getHistory (Extra := Extra) None w).1)
    /\ (length older
        = Nat.min 99 (length (default [] (data (getHistory (Extra := Extra) None w).1))))
    /\ action entry = a
    /\ playerId entry = pid
    /\ playerName entry = pname
    /\ details entry = d
    /\ h_id entry = (pretty (clock (ticks w)) ++ "-" ++ random (draws w))%string
    /\ timestamp entry = clock (S (ticks w)).
Proof.
  unfold addHistoryEntry. rewrite bind_eq.
  set (history := default [] (data (getHistory (Extra := Extra) None w).1)).
  rewrite getHistory_reads.
  unfold generateId, Date_now, Math_random_suffix.
  rewrite !bind_eq. unfold ret, modify. cbn -[Nat.min slice_from].
  eexists (slice_from history (-99)), _.
  split; [reflexivity|].
  assert (Hlen : length (slice_from history (-99)) = Nat.min 99 (length history)).
  { rewrite (slice_from_neg_spec history 99), length_drop. lia. }
  split; [rewrite length_app, Hlen; cbn [length]; lia|].
  split; [rewrite (slice_from_neg_spec history 99); apply suffix_drop|].
  split; [exact Hlen|].
  repeat split.
Qed.

(** X27: after [clearHistory] the history reads as empty under every limit,
    the next entry added is the only one stored, and neither the roster, the
    settings nor the cache has been touched. *)
Theorem clearHistory_empties (limit : option Z) (a : Action)
    (pid pname : option string) (d : string) w :
  getHistory limit (clearHistory (Extra := Extra) w).2
  = (ok [], (clearHistory (Extra := Extra) w).2)
  /\ (exists entry,
        ls_history (addHistoryEntry clock random a pid pname d
                      (clearHistory (Extra := Extra) w).2).2
        = Some (text [entry])
        /\ action entry = a /\ playerId entry = pid)
  /\ ls_players (clearHistory (Extra := Extra) w).2 = ls_players w
  /\ ls_settings (clearHistory (Extra := Extra) w).2 = ls_settings w
  /\ cache (clearHistory (Extra := Extra) w).2 = cache w.
Proof.
  unfold clearHistory. rewrite bind_eq. unfold modify, ret. cbn [fst snd].
  split; [reflexivity|]. split; [|repeat split].
  unfold addHistoryEntry, getHistory, generateId, Date_now, Math_random_suffix.
  rewrite !bind_eq. unfold gets, ret, modify. cbn.
  eexists. split; [reflexivity|]. split; reflexivity.
Qed.

End HistoryFacts.

Section SettingsFacts.

Import JS DataService.
Open Scope float_scope.

Context {Extra : Type}.
Implicit Types (w : World Extra).

(** X28: settings that were saved are the settings read next, as JSON wrote
    them, and reading changes nothing.  With nothing stored, [getSettings]
    answers with the defaults and stores them, so that the next call reads
    the same defaults; a stored text that does not parse is reported as
    "Failed to load settings" and left in place. *)
Theorem settings_roundtrip (s : AppSettings) w :
  getSettings (saveSettings s w).2 = (ok (JSON_settings s), (saveSettings s w).2)
  /\ ls_players (saveSettings s w).2 = ls_players w
  /\ (if_stored (ls_settings w) = None ->
      (getSettings w).1 = ok defaultSettings
      /\ getSettings (getSettings w).2 = (ok defaultSettings, (getSettings w).2))
  /\ (ls_settings w = Some unparsable ->
      getSettings w = (failure "Failed to load settings", w)).
Proof.
  split; [reflexivity|]. split; [reflexivity|]. split.
  - intros Hnone.
    assert (Hfirst : getSettings w
                     = (ok defaultSettings,
                        set_ls_settings (Some (text (JSON_settings defaultSettings))) w)).
    { unfold getSettings. rewrite bind_eq. unfold gets. cbn [fst snd].
      rewrite Hnone. unfold saveSettings. rewrite !bind_eq. reflexivity. }
    rewrite Hfirst. split; reflexivity.
  - intros Hbad. unfold getSettings. rewrite bind_eq. unfold gets.
    cbn [fst snd]. rewrite Hbad. reflexivity.
Qed.

End SettingsFacts.

Section RosterFacts.

Import JS DataService.
Open Scope float_scope.

Context {Extra : Type} (JSON_extra : Extra -> Extra).
Context (initialPlayers : list (Player Extra)).
Context (clock : nat -> Z) (random : nat -> string).

Implicit Types (w : World Extra) (p q : Player Extra) (ps : list (Player Extra)).

(** ** Image synchronisation *)

(** What [syncPlayerImages] does to one player. *)
Lemma syncPlayerImages_map ps :
  syncPlayerImages initialPlayers ps = map (sync_one initialPlayers) ps.
Proof.
  unfold syncPlayerImages, sync_one. apply map_ext. intros p.
  destruct (list_find (same_player p) initialPlayers) as [[k ip]|]; reflexivity.
Qed.

Lemma set_image_eta p : set_image p (image p) = p.
Proof. destruct p; reflexivity. Qed.

Lemma set_image_twice p (i j : option string) :
  set_image (set_image p i) j = set_image p j.
Proof. destruct p; reflexivity. Qed.

Lemma sync_one_image p :
  sync_one initialPlayers p = set_image p (image (sync_one initialPlayers p))
  /\ (image (sync_one initialPlayers p) = image p
      \/ exists ip, ip ∈ initialPlayers /\ same_player p ip
                    /\ truthy (image ip) = true
                    /\ image (sync_one initialPlayers p) = image ip).
Proof.
  unfold sync_one.
  destruct (list_find (same_player p) initialPlayers) as [[k ip]|] eqn:Hfind.
  - destruct (truthy (image ip)) eqn:Himage.
    + split; [clear Hfind; destruct p; reflexivity|]. right. exists ip.
      apply list_find_Some in Hfind as (Hk & Hsame & _).
      split; [eapply list_elem_of_lookup_2; exact Hk|].
      split; [exact Hsame|]. split; [exact Himage|]. destruct p; reflexivity.
    + split; [symmetry; apply set_image_eta | left; reflexivity].
  - split; [symmetry; apply set_image_eta | left; reflexivity].
Qed.

Lemma sync_one_idem p :
  sync_one initialPlayers (sync_one initialPlayers p) = sync_one initialPlayers p.
Proof.
  assert (Hsame : forall i, list_find (same_player (set_image p i)) initialPlayers
                            = list_find (same_player p) initialPlayers).
  { intros i. destruct p; reflexivity. }
  unfold sync_one at 2.
  destruct (list_find (same_player p) initialPlayers) as [[k ip]|] eqn:Hfind.
  - destruct (truthy (image ip)) eqn:Himage.
    + unfold sync_one. rewrite Hsame, Hfind, Himage.
      apply set_image_twice.
    + unfold sync_one. rewrite Hfind, Himage. reflexivity.
  - unfold sync_one. rewrite Hfind. reflexivity.
Qed.

(** X17: [syncPlayerImages] keeps the roster's length and order and touches
    nothing but the [image] of a player; the image is the player's own or
    the (non-empty) image of an initial player with the same id or name; and
    synchronising a second time changes nothing. *)
Theorem syncPlayerImages_only_images ps :
  length (syncPlayerImages initialPlayers ps) = length ps
  /\ (forall (j : nat) p,
        ps !! j = Some p ->
        exists q,
          syncPlayerImages initialPlayers ps !! j = Some q
          /\ q = set_image p (image q)
          /\ (image q = image p
              \/ exists ip, ip ∈ initialPlayers /\ same_player p ip
                            /\ truthy (image ip) = true /\ image q = image ip))
  /\ syncPlayerImages initialPlayers (syncPlayerImages initialPlayers ps)
     = syncPlayerImages initialPlayers ps.
Proof.
  rewrite !syncPlayerImages_map. split; [apply length_map|]. split.
  - intros j p Hj. exists (sync_one initialPlayers p).
    split; [rewrite list_lookup_fmap, Hj; reflexivity|]. apply sync_one_image.
  - rewrite map_map. apply map_ext. intros p. apply sync_one_idem.
Qed.

(** ** Saving and loading *)

(** X18: what was saved is what is loaded next: [getAllPlayers] after
    [savePlayers ps] succeeds with [ps], images synchronised, served from the
    cache while it is fresh (less than five minutes by the clock) and from
    storage, as JSON wrote it, afterwards. *)
Theorem savePlayers_then_getAllPlayers ps w :
  (getAllPlayers JSON_extra initialPlayers clock
     (savePlayers JSON_extra clock ps w).2).1
  = ok (syncPlayerImages initialPlayers
          (if (clock (S (ticks w)) - clock (ticks w) <? 5 * 60 * 1000)%Z
           then ps else JSON_roster JSON_extra ps)).
Proof.
  unfold savePlayers, setCache, Date_now. rewrite !bind_eq.
  unfold modify, ret. cbn [fst snd].
  unfold getAllPlayers, getFromCache. rewrite !bind_eq. unfold gets.
  cbn [fst snd cache set_cache set_ticks set_ls_players ticks].
  rewrite lookup_insert_eq. unfold Date_now. rewrite bind_eq. unfold ret.
  cbn [fst snd cache set_cache set_ticks set_ls_players ticks c_timestamp c_data].
  change cacheExpiry with (5 * 60 * 1000)%Z.
  destruct (clock (S (ticks w)) - clock (ticks w) <? 5 * 60 * 1000)%Z.
  - reflexivity.
  - rewrite bind_eq.
    cbn [fst snd ls_players set_cache set_ticks set_ls_players if_stored JSON_parse].
    rewrite !bind_eq. reflexivity.
Qed.

(** X19: [getAllPlayers] fails only when it has to read the stored text and
    that text does not parse; it then leaves storage and cache as they were.
    When it succeeds it returns a roster, either straight from the cache
    (storage and cache untouched) or freshly loaded, and then storage holds
    that roster as JSON and the cache holds the roster itself. *)
Theorem getAllPlayers_outcome w :
  match data (getAllPlayers JSON_extra initialPlayers clock w).1 with
  | Some view =>
      success (getAllPlayers JSON_extra initialPlayers clock w).1 = true
      /\ ((exists c, cache w !! STORAGE_KEY = Some c
                     /\ view = syncPlayerImages initialPlayers (c_data c)
                     /\ ls_players (getAllPlayers JSON_extra initialPlayers clock w).2
                        = ls_players w
                     /\ cache (getAllPlayers JSON_extra initialPlayers clock w).2
                        = cache w)
          \/ (ls_players (getAllPlayers JSON_extra initialPlayers clock w).2
              = Some (text (JSON_roster JSON_extra view))
              /\ @c_data Extra <$> cache (getAllPlayers JSON_extra initialPlayers clock w).2
                            !! STORAGE_KEY
                 = Some view))
  | None =>
      success (getAllPlayers JSON_extra initialPlayers clock w).1 = false
      /\ ls_players w = Some unparsable
      /\ ls_players (getAllPlayers JSON_extra initialPlayers clock w).2 = ls_players w
      /\ cache (getAllPlayers JSON_extra initialPlayers clock w).2 = cache w
  end.
Proof.
  unfold getAllPlayers, getFromCache. rewrite !bind_eq. unfold gets.
  cbn [fst snd].
  destruct (cache w !! STORAGE_KEY) as [c|] eqn:Hcache.
  - unfold Date_now. rewrite bind_eq. unfold ret. cbn [fst snd].
    destruct (clock (ticks w) - c_timestamp c <? cacheExpiry)%Z.
    + cbn. split; [reflexivity|]. left. exists c. repeat split; assumption.
    + rewrite bind_eq. cbn [fst snd ls_players set_ticks].
      destruct (ls_players w) as [[| |ps]|] eqn:Hls;
        cbn [if_stored JSON_parse]; unfold savePlayers, setCache, Date_now;
        rewrite ?bind_eq; unfold modify, ret; cbn.
      * split; [reflexivity|]. right. rewrite lookup_insert_eq. split; reflexivity.
      * repeat split; assumption.
      * split; [reflexivity|]. right. rewrite lookup_insert_eq. split; reflexivity.
      * split; [reflexivity|]. right. rewrite lookup_insert_eq. split; reflexivity.
  - unfold ret. cbn [fst snd]. rewrite bind_eq. cbn [fst snd].
    destruct (ls_players w) as [[| |ps]|] eqn:Hls;
      cbn [if_stored JSON_parse]; unfold savePlayers, setCache, Date_now;
      rewrite ?bind_eq; unfold modify, ret; cbn.
    + split; [reflexivity|]. right. rewrite lookup_insert_eq. split; reflexivity.
    + repeat split; assumption.
    + split; [reflexivity|]. right. rewrite lookup_insert_eq. split; reflexivity.
    + split; [reflexivity|]. right. rewrite lookup_insert_eq. split; reflexivity.
Qed.

(** ** Looking up, updating, deleting and adding a player *)

Lemma list_find_first (i : string) ps (k : nat) p :
  list_find (has_id i) ps = Some (k, p) ->
  ps !! k = Some p /\ id p = Some i
  /\ (forall (j : nat) q, (j < k)%nat -> ps !! j = Some q -> id q <> Some i).
Proof.
  intros Hfind. apply list_find_Some in Hfind as (Hk & Hid & Hfirst).
  split; [exact Hk|]. split; [exact Hid|].
  intros j q Hj Hq. exact (Hfirst j q Hq Hj).
Qed.

(** X20: [getPlayerById] only loads the roster; it answers with the first
    player of the loaded roster whose id is the one asked for, and with
    "Player not found" when the roster has no such player. *)
Theorem getPlayerById_first (i : string) w :
  (getPlayerById JSON_extra initialPlayers clock i w).2
  = (getAllPlayers JSON_extra initialPlayers clock w).2
  /\ (success (getPlayerById JSON_extra initialPlayers clock i w).1 = true ->
      exists loaded (k : nat) p,
        data (getAllPlayers JSON_extra initialPlayers clock w).1 = Some loaded
        /\ data (getPlayerById JSON_extra initialPlayers clock i w).1 = Some p
        /\ loaded !! k = Some p /\ id p = Some i
        /\ (forall (j : nat) q, (j < k)%nat -> loaded !! j = Some q -> id q <> Some i))
  /\ (forall loaded,
        data (getAllPlayers JSON_extra initialPlayers clock w).1 = Some loaded ->
        Forall (fun q => id q <> Some i) loaded ->
        (getPlayerById JSON_extra initialPlayers clock i w).1
        = failure "Player not found").
Proof.
  pose proof (getAllPlayers_outcome w) as Hout.
  unfold getPlayerById. rewrite bind_eq.
  destruct (getAllPlayers JSON_extra initialPlayers clock w) as [r w1] eqn:Hall.
  cbn [fst snd] in *.
  destruct (data r) as [loaded|] eqn:Hdata.
  - destruct Hout as [Hsuccess _]. rewrite Hsuccess.
    destruct (list_find (has_id i) loaded) as [[k p]|] eqn:Hfind; unfold ret; cbn.
    + split; [reflexivity|]. split.
      * intros _. exists loaded, k, p.
        split; [reflexivity|]. split; [reflexivity|].
        apply list_find_first. exact Hfind.
      * intros loaded' [= <-] Hnone.
        apply list_find_first in Hfind as (Hk & Hid & _).
        rewrite Forall_forall in Hnone.
        exfalso. apply (Hnone p); [eapply list_elem_of_lookup_2; exact Hk | exact Hid].
    + split; [reflexivity|]. split; [discriminate|]. reflexivity.
  - destruct Hout as [Hsuccess _]. rewrite Hsuccess. unfold ret. cbn.
    split; [reflexivity|]. split; [discriminate|]. intros loaded [=].
Qed.

(** X21: a successful [updatePlayer] replaces exactly one entry of the loaded
    roster, the first with the given id, by the merged player, which has
    passed [validatePlayer]; the roster keeps its length and every other
    entry, and the history ends with an "update" entry for that id. *)
Theorem updatePlayer_replaces_one (i : string) (updates : PartialPlayer Extra) w
    (response : DataServiceResponse (Player Extra)) w' :
  updatePlayer JSON_extra initialPlayers clock random i updates w = (response, w') ->
  success response = true ->
  exists loaded stored (k : nat) p,
    data (getAllPlayers JSON_extra initialPlayers clock w).1 = Some loaded
    /\ loaded !! k = Some p /\ id p = Some i
    /\ (forall (j : nat) q, (j < k)%nat -> loaded !! j = Some q -> id q <> Some i)
    /\ data response = Some (spread p updates)
    /\ success (validatePlayer (spread p updates)) = true
    /\ ls_players w' = Some (text (JSON_roster JSON_extra stored))
    /\ length stored = length loaded
    /\ stored !! k = Some (spread p updates)
    /\ (forall j : nat, j <> k -> stored !! j = loaded !! j)
    /\ (exists older entry,
          ls_history w' = Some (text (older ++ [entry]))
          /\ action entry = update /\ playerId entry = Some i).
Proof.
  intros Hupdate Hok.
  destruct (updatePlayer_success _ _ _ _ _ _ _ _ _ Hupdate Hok)
    as (ps & k & p & Hloaded & Hfind & Hvalid & Hdata & Hstored).
  exists ps, (<[k := spread p updates]> ps), k, p.
  apply list_find_first in Hfind as Hfirst. destruct Hfirst as (Hk & Hid & Hfirst).
  split; [exact Hloaded|]. split; [exact Hk|]. split; [exact Hid|].
  split; [exact Hfirst|]. split; [exact Hdata|]. split; [exact Hvalid|].
  split; [exact Hstored|]. split; [apply length_insert|].
  split; [apply list_lookup_insert_eq; apply lookup_lt_Some in Hk; exact Hk|].
  split; [intros j Hj; apply list_lookup_insert_ne; congruence|].
  revert Hupdate. unfold updatePlayer. rewrite bind_eq.
  destruct (getAllPlayers JSON_extra initialPlayers clock w) as [r1 w1].
  cbn [fst snd] in *. rewrite Hloaded.
  destruct (success r1); [|unfold ret; intros ?; simplify_eq; discriminate].
  rewrite Hfind, Hvalid. cbn [negb]. rewrite !bind_eq. unfold ret.
  intros Heq. apply (f_equal snd) in Heq. cbn [snd] in Heq. subst w'.
  destruct (addHistoryEntry_bounded clock random update (Some i)
              (name (spread p updates)) "Updated player stats"
              (savePlayers JSON_extra clock (<[k:=spread p updates]> ps) w1).2)
    as (older & entry & Hhist & _ & _ & _ & Haction & Hpid & _).
  exists older, entry. split; [exact Hhist|]. split; assumption.
Qed.

(** X22: an unsuccessful [updatePlayer] (no such player, or a merged player
    that fails validation) writes nothing: the state is the one that loading
    the roster leaves. *)
Theorem updatePlayer_failure_writes_nothing (i : string)
    (updates : PartialPlayer Extra) w :
  success (updatePlayer JSON_extra initialPlayers clock random i updates w).1 = false ->
  (updatePlayer JSON_extra initialPlayers clock random i updates w).2
  = (getAllPlayers JSON_extra initialPlayers clock w).2.
Proof.
  unfold updatePlayer. rewrite bind_eq.
  destruct (getAllPlayers JSON_extra initialPlayers clock w) as [r w1].
  cbn [fst snd].
  destruct (success r); [|reflexivity].
  destruct (data r) as [loaded|]; [|reflexivity].
  destruct (list_find (has_id i) loaded) as [[k p]|]; [|reflexivity].
  destruct (success (validatePlayer (spread p updates))); cbn [negb]; [|reflexivity].
  rewrite !bind_eq. unfold ret. cbn. discriminate.
Qed.

(** X23: a successful [deletePlayer] stores the loaded roster without the
    players that carry the given id: what is stored is a sub-list of the
    loaded roster, shorter than it, in which no player has that id and from
    which no other player is missing. *)
Theorem deletePlayer_removes (i : string) w
    (response : DataServiceResponse unit) w' :
  deletePlayer JSON_extra initialPlayers clock random i w = (response, w') ->
  success response = true ->
  exists loaded remaining,
    data (getAllPlayers JSON_extra initialPlayers clock w).1 = Some loaded
    /\ ls_players w' = Some (text (JSON_roster JSON_extra remaining))
    /\ remaining `sublist_of` loaded
    /\ (length remaining < length loaded)%nat
    /\ Forall (fun q => id q <> Some i) remaining
    /\ (forall q, q ∈ loaded -> id q <> Some i -> q ∈ remaining).
Proof.
  unfold deletePlayer. rewrite bind_eq.
  destruct (getAllPlayers JSON_extra initialPlayers clock w) as [r w1].
  cbn [fst snd].
  destruct (success r); [|unfold ret; intros ? ?; simplify_eq/=].
  destruct (data r) as [loaded|]; [|unfold ret; intros ? ?; simplify_eq/=].
  destruct (list_find (has_id i) loaded) as [[k p]|] eqn:Hfind;
    [|unfold ret; intros ? ?; simplify_eq/=].
  rewrite !bind_eq. unfold ret. intros Heq _.
  apply (f_equal snd) in Heq. cbn [snd] in Heq. subst w'.
  exists loaded, (filter (fun q => ¬ has_id i q) loaded).
  split; [reflexivity|].
  split; [rewrite addHistoryEntry_players; apply savePlayers_stored|].
  split; [apply sublist_filter|].
  apply list_find_first in Hfind as (Hk & Hid & _).
  split.
  { apply (length_filter_lt _ _ p); [eapply list_elem_of_lookup_2; exact Hk|].
    intros Hnot. apply Hnot. exact Hid. }
  split.
  { apply Forall_forall. intros q Hq. apply list_elem_of_filter in Hq as [Hq _]. exact Hq. }
  intros q Hq Hid'. apply list_elem_of_filter. split; assumption.
Qed.

(** X24: [addPlayer] validates before it touches anything: rejected data
    leaves the whole state as it was; accepted data is stored at the end of
    the loaded roster under a fresh id made of the clock reading and the
    random suffix. *)
Theorem addPlayer_appends (playerData : Player Extra) w :
  (success (validatePlayer playerData) = false ->
   addPlayer JSON_extra initialPlayers clock random playerData w
   = ({| success := false; data := None; error := error (validatePlayer playerData) |}, w))
  /\ (success (addPlayer JSON_extra initialPlayers clock random playerData w).1 = true ->
      exists loaded newPlayer,
        success (validatePlayer playerData) = true
        /\ data (getAllPlayers JSON_extra initialPlayers clock w).1 = Some loaded
        /\ newPlayer
           = set_id playerData
               (Some (pretty (clock (ticks (getAllPlayers JSON_extra initialPlayers
                                               clock w).2))
                      ++ "-"
                      ++ random (draws (getAllPlayers JSON_extra initialPlayers
                                          clock w).2))%string)
        /\ data (addPlayer JSON_extra initialPlayers clock random playerData w).1
           = Some newPlayer
        /\ ls_players (addPlayer JSON_extra initialPlayers clock random playerData w).2
           = Some (text (JSON_roster JSON_extra (loaded ++ [newPlayer])))).
Proof.
  unfold addPlayer.
  destruct (success (validatePlayer playerData)) eqn:Hvalid; cbn [negb].
  2:{ split; [reflexivity|]. unfold ret. cbn. discriminate. }
  split; [discriminate|].
  rewrite bind_eq.
  destruct (getAllPlayers JSON_extra initialPlayers clock w) as [r w1].
  cbn [fst snd].
  destruct (success r); [|unfold ret; cbn; discriminate].
  destruct (data r) as [loaded|]; [|unfold ret; cbn; discriminate].
  unfold generateId, Date_now, Math_random_suffix.
  rewrite !bind_eq. unfold ret. cbn [fst snd]. intros _.
  eexists loaded, _.
  split; [reflexivity|]. split; [reflexivity|]. split; [reflexivity|].
  split; [reflexivity|].
  rewrite addHistoryEntry_players. apply savePlayers_stored.
Qed.

(** X25: [resetToDefaults] stores the initial roster and empties the cache,
    so that the next [getAllPlayers] reads the initial roster back from
    storage. *)
Theorem resetToDefaults_restores w :
  ls_players (resetToDefaults JSON_extra initialPlayers clock w).2
  = Some (text (JSON_roster JSON_extra initialPlayers))
  /\ cache (resetToDefaults JSON_extra initialPlayers clock w).2 = ∅
  /\ (getAllPlayers JSON_extra initialPlayers clock
        (resetToDefaults JSON_extra initialPlayers clock w).2).1
     = ok (syncPlayerImages initialPlayers (JSON_roster JSON_extra initialPlayers)).
Proof.
  unfold resetToDefaults, savePlayers, setCache, clearCache, Date_now.
  rewrite !bind_eq. unfold modify, ret. cbn [fst snd].
  split; [reflexivity|]. split; [reflexivity|].
  unfold getAllPlayers, getFromCache. rewrite !bind_eq. unfold gets.
  cbn [fst snd cache set_cache set_ticks set_ls_players].
  rewrite lookup_empty. unfold ret. cbn [fst snd]. rewrite bind_eq.
  cbn [fst snd ls_players set_cache set_ticks set_ls_players if_stored JSON_parse].
  rewrite !bind_eq. reflexivity.
Qed.

(** ** Filtering *)

(** X29: [filterPlayers] fails only when the roster cannot be loaded.
    Otherwise it answers with the loaded players, in their order, that meet
    every criterion that is given: the role, when it is a non-empty string,
    and each of the three bounds, when it is not [undefined].  So a player
    selected under a minimum batting average has a batting average that is a
    number: a missing or NaN statistic meets no bound. *)
Theorem filterPlayers_criteria (filters : Filters) w :
  (filterPlayers JSON_extra initialPlayers clock filters w).2
  = (getAllPlayers JSON_extra initialPlayers clock w).2
  /\ match data (getAllPlayers JSON_extra initialPlayers clock w).1 with
     | Some loaded =>
         exists filtered,
           (filterPlayers JSON_extra initialPlayers clock filters w).1 = ok filtered
           /\ filtered `sublist_of` loaded
           /\ (forall p,
                 p ∈ filtered <->
                 p ∈ loaded
                 /\ (truthy (f_role filters) = true -> role p = f_role filters)
                 /\ (forall m, minBattingAverage filters = Some m ->
                       ge (ToNumber (battingAverage p)) m = true)
                 /\ (forall m, maxBowlingEconomy filters = Some m ->
                       le (ToNumber (bowlingEconomy p)) m = true)
                 /\ (forall m, minFitnessScore filters = Some m ->
                       ge (ToNumber (fitnessScore p)) m = true))
           /\ (forall p m,
                 p ∈ filtered -> minBattingAverage filters = Some m ->
                 is_nan (ToNumber (battingAverage p)) = false)
     | None =>
         (filterPlayers JSON_extra initialPlayers clock filters w).1
         = failure "Failed to fetch players"
     end.
Proof.
  pose proof (getAllPlayers_outcome w) as Hout.
  unfold filterPlayers. rewrite bind_eq.
  destruct (getAllPlayers JSON_extra initialPlayers clock w) as [r w1].
  cbn [fst snd] in *.
  destruct (data r) as [loaded|]; destruct Hout as [Hsuccess _]; rewrite Hsuccess;
    [|split; reflexivity].
  cbv zeta. unfold ret. cbn [fst snd].
  split; [reflexivity|]. eexists. split; [reflexivity|].
  assert (Hmem : forall p,
    p ∈ (match minFitnessScore filters with
         | Some m => filter (fun p => ge (ToNumber (fitnessScore p)) m = true)
         | None => fun l => l
         end
           (match maxBowlingEconomy filters with
            | Some m => filter (fun p => le (ToNumber (bowlingEconomy p)) m = true)
            | None => fun l => l
            end
              (match minBattingAverage filters with
               | Some m => filter (fun p => ge (ToNumber (battingAverage p)) m = true)
               | None => fun l => l
               end
                 (if truthy (f_role filters)
                  then filter (fun p => role p = f_role filters) loaded
                  else loaded)))) <->
    p ∈ loaded
    /\ (truthy (f_role filters) = true -> role p = f_role filters)
    /\ (forall m, minBattingAverage filters = Some m ->
          ge (ToNumber (battingAverage p)) m = true)
    /\ (forall m, maxBowlingEconomy filters = Some m ->
          le (ToNumber (bowlingEconomy p)) m = true)
    /\ (forall m, minFitnessScore filters = Some m ->
          ge (ToNumber (fitnessScore p)) m = true)).
  { intros p.
    destruct (truthy (f_role filters)), (minBattingAverage filters),
      (maxBowlingEconomy filters), (minFitnessScore filters);
      rewrite ?list_elem_of_filter;
      (split;
       [ intros H; repeat split; try tauto; try discriminate;
         intros ? [= <-]; tauto
       | intros (H0 & H1 & H2 & H3 & H4); repeat split; auto ]). }
  destruct (truthy (f_role filters)) eqn:Hrole,
    (minBattingAverage filters) as [m1|] eqn:Hbat,
    (maxBowlingEconomy filters) as [m2|] eqn:Heco,
    (minFitnessScore filters) as [m3|] eqn:Hfit;
    (split; [repeat (etrans; [apply sublist_filter|]); reflexivity|]);
    (split; [exact Hmem|]);
    intros p m Hp [= <-]; apply Hmem in Hp as (_ & _ & Hge & _);
    specialize (Hge _ eq_refl); unfold ge in Hge;
    apply leb_not_nan in Hge as [_ Hge]; exact Hge.
Qed.

End RosterFacts.

(** * The data service on sample states, continued *)

Section ServiceRuns.

Import JS DataService ServiceSamples.
Open Scope float_scope.

Lemma getHistory_last_entries_witness :
  exists h : list HistoryEntry,
    getHistory (Some 2%Z) logged_world = (ok h, logged_world)
    /\ h `suffix_of` sample_history
    /\ length h = Nat.min (Pos.to_nat 2) (length sample_history).
Proof.
  apply (getHistory_last_entries 2 sample_history logged_world). reflexivity.
Defined.

Lemma updatePlayer_replaces_one_witness :
  exists loaded stored (k : nat) p,
    data (getAllPlayers JSON_unit initial_roster ticking_clock
            (stored_world [short_name; asha])).1 = Some loaded
    /\ loaded !! k = Some p /\ id p = Some "1"
    /\ (forall (j : nat) q, (j < k)%nat -> loaded !! j = Some q -> id q <> Some "1")
    /\ data (updatePlayer JSON_unit initial_roster ticking_clock fixed_suffix "1" fitter
               (stored_world [short_name; asha])).1 = Some (spread p fitter)
    /\ success (validatePlayer (spread p fitter)) = true
    /\ ls_players (updatePlayer JSON_unit initial_roster ticking_clock fixed_suffix "1"
                     fitter (stored_world [short_name; asha])).2
       = Some (text (JSON_roster JSON_unit stored))
    /\ length stored = length loaded
    /\ stored !! k = Some (spread p fitter)
    /\ (forall j : nat, j <> k -> stored !! j = loaded !! j)
    /\ (exists older entry,
          ls_history (updatePlayer JSON_unit initial_roster ticking_clock fixed_suffix
                        "1" fitter (stored_world [short_name; asha])).2
          = Some (text (older ++ [entry]))
          /\ action entry = update /\ playerId entry = Some "1").
Proof.
  apply (updatePlayer_replaces_one JSON_unit initial_roster ticking_clock fixed_suffix
           "1" fitter (stored_world [short_name; asha])
           (updatePlayer JSON_unit initial_roster ticking_clock fixed_suffix "1" fitter
              (stored_world [short_name; asha])).1
           (updatePlayer JSON_unit initial_roster ticking_clock fixed_suffix "1" fitter
              (stored_world [short_name; asha])).2).
  - apply surjective_pairing.
  - vm_compute. reflexivity.
Defined.

Lemma updatePlayer_failure_writes_nothing_witness :
  (updatePlayer JSON_unit initial_roster ticking_clock fixed_suffix "7" fitter
     (stored_world [asha])).2
  = (getAllPlayers JSON_unit initial_roster ticking_clock (stored_world [asha])).2.
Proof.
  apply (updatePlayer_failure_writes_nothing JSON_unit initial_roster ticking_clock
           fixed_suffix "7" fitter (stored_world [asha])).
  vm_compute. reflexivity.
Defined.

Lemma deletePlayer_removes_witness :
  exists loaded remaining,
    data (getAllPlayers JSON_unit initial_roster ticking_clock
            (stored_world [asha; short_name])).1 = Some loaded
    /\ ls_players (deletePlayer JSON_unit initial_roster ticking_clock fixed_suffix "2"
                     (stored_world [asha; short_name])).2
       = Some (text (JSON_roster JSON_unit remaining))
    /\ remaining `sublist_of` loaded
    /\ (length remaining < length loaded)%nat
    /\ Forall (fun q => id q <> Some "2") remaining
    /\ (forall q, q ∈ loaded -> id q <> Some "2" -> q ∈ remaining).
Proof.
  apply (deletePlayer_removes JSON_unit initial_roster ticking_clock fixed_suffix "2"
           (stored_world [asha; short_name])
           (deletePlayer JSON_unit initial_roster ticking_clock fixed_suffix "2"
              (stored_world [asha; short_name])).1
           (deletePlayer JSON_unit initial_roster ticking_clock fixed_suffix "2"
              (stored_world [asha; short_name])).2).
  - apply surjective_pairing.
  - vm_compute. reflexivity.
Defined.

End ServiceRuns.
